(** * sap-cta-data-pipeline: the perpendicular hit distribution script and
      the benchmark plots container

    A shallow embedding of

    - [utils/plot_perpendicular_hit_distribution.py] (the batch script), and
    - [utils/gui/benchmark/benchmark_plots_container.py] (the GTK container),

    followed by the properties of the two programs.

    Python floats are idealised as real numbers (no rounding, no NaN) and
    astropy quantities are taken by their magnitude in metres and radians.
    Code of other packages (numpy, matplotlib, ctapipe, os.path) is embedded
    by its documented behaviour; code of the [datapipe] package and of
    [common_functions], which the two files import, is an interface
    ([Collaborators]) that every definition takes as a parameter. *)

From Stdlib Require Import Reals Lra Lia List String Ascii Bool Arith.
Import ListNotations.

Local Open Scope string_scope.
Local Open Scope R_scope.
Local Open Scope list_scope.

(* ================================================================== *)
(** * Part I: the embedding *)
(* ================================================================== *)

(** ** Python: exceptions, results, and a state-and-exception monad *)

Module Py.

(** The exceptions the two files raise or let through. *)
Inductive exn : Type :=
| NameError (name : string)
| KeyError (key : string)
| IndexError (msg : string)
| TypeError (msg : string)
| ValueError (msg : string)
| AssessError (msg : string)
| Exception (msg : string).

Inductive result (A : Type) : Type :=
| Ok (a : A)
| Raise (e : exn).
Arguments Ok {A} a.
Arguments Raise {A} e.

Definition is_ok {A} (r : result A) : bool :=
  match r with Ok _ => true | Raise _ => false end.

(** A computation over a store [S]: it returns a value or raises, and in
    both cases leaves a store behind (what was done before a [raise] stays
    done). *)
Definition M (S A : Type) : Type := S -> result A * S.

Definition ret {S A} (a : A) : M S A := fun s => (Ok a, s).

Definition raise {S A} (e : exn) : M S A := fun s => (Raise e, s).

Definition bind {S A B} (m : M S A) (k : A -> M S B) : M S B :=
  fun s =>
    match m s with
    | (Ok a, s') => k a s'
    | (Raise e, s') => (Raise e, s')
    end.

Definition lift {S A} (r : result A) : M S A := fun s => (r, s).

Definition get {S} : M S S := fun s => (Ok s, s).

Definition modify {S} (f : S -> S) : M S unit := fun s => (Ok tt, f s).

(** [try: body except E: handler], where [catches e] says whether the
    [except] clause matches. *)
Definition try_except {S A} (body : M S A) (catches : exn -> bool)
           (handler : M S A) : M S A :=
  fun s =>
    match body s with
    | (Ok a, s') => (Ok a, s')
    | (Raise e, s') => if catches e then handler s' else (Raise e, s')
    end.

(** [for x in xs: acc = body(acc, x)], the loop-carried locals being
    [acc]. *)
Fixpoint for_each {S A X} (xs : list X) (body : A -> X -> M S A) (acc : A)
  : M S A :=
  match xs with
  | [] => ret acc
  | x :: xs' => bind (body acc x) (for_each xs' body)
  end.

(** Values that reach [print] or a name lookup. *)
Inductive value : Type :=
| VStr (s : string)
| VFloat (x : R)
| VFloats (xs : list R)
| VStrs (xs : list string)
| VClass (name : string)
| VModule (name : string)
| VFunction (name : string).

(** [d[key]] on a dict kept in insertion order. *)
Fixpoint getitem {V} (d : list (string * V)) (key : string) : result V :=
  match d with
  | [] => Raise (KeyError key)
  | (k, v) :: d' => if String.eqb k key then Ok v else getitem d' key
  end.

End Py.

Import Py.

Declare Scope py_scope.
Delimit Scope py_scope with py.
Notation "x <- m ;; k" := (bind m (fun x => k))
  (at level 61, m at next level, right associativity) : py_scope.
Notation "m ;;; k" := (bind m (fun _ => k))
  (at level 61, right associativity) : py_scope.
Local Open Scope py_scope.

(** ** os.path (posixpath) *)

Module OsPath.

Definition slash : ascii := "/"%char.
Definition dot : ascii := "."%char.

(** [p.rfind(c) + 1]: the length of the shortest prefix of [p] that ends
    with the last [c], or 0 when [c] does not occur. *)
Fixpoint rfind_succ (c : ascii) (p : string) : nat :=
  match p with
  | EmptyString => 0%nat
  | String a p' =>
      match rfind_succ c p' with
      | O => if Ascii.eqb a c then 1%nat else 0%nat
      | S n => S (S n)
      end
  end.

Definition slice_from (i : nat) (p : string) : string :=
  substring i (String.length p - i) p.

Definition slice_to (i : nat) (p : string) : string := substring 0 i p.

(** [i = p.rfind('/') + 1; return p[i:]] *)
Definition basename (p : string) : string :=
  slice_from (rfind_succ slash p) p.

(** The [while] loop of [genericpath._splitext]: is there a character
    other than a dot in [p[filenameIndex:dotIndex]]? *)
Fixpoint has_non_dot (p : string) (filenameIndex count : nat) : bool :=
  match count with
  | O => false
  | S count' =>
      match String.get filenameIndex p with
      | Some a =>
          if Ascii.eqb a dot then has_non_dot p (S filenameIndex) count'
          else true
      | None => true
      end
  end.

(** [os.path.splitext]: the extension starts at the last dot of the last
    path component, leading dots of that component not counting. *)
Definition splitext (p : string) : string * string :=
  let sepIndex1 := rfind_succ slash p in      (* sepIndex + 1 *)
  let dotIndex1 := rfind_succ dot p in        (* dotIndex + 1 *)
  if (sepIndex1 <? dotIndex1)%nat then
    let dotIndex := (dotIndex1 - 1)%nat in
    if has_non_dot p sepIndex1 (dotIndex - sepIndex1)
    then (slice_to dotIndex p, slice_from dotIndex p)
    else (p, "")
  else (p, "").

(** [os.path.join(a, b)] *)
Definition join (a b : string) : string :=
  match b with
  | String c _ =>
      if Ascii.eqb c slash then b
      else
        match a with
        | EmptyString => b
        | _ =>
            if (rfind_succ slash a =? String.length a)%nat
            then (a ++ b)%string
            else (a ++ "/" ++ b)%string
        end
  | EmptyString =>
      match a with
      | EmptyString => b
      | _ =>
          if (rfind_succ slash a =? String.length a)%nat
          then a
          else (a ++ "/")%string
      end
  end.

End OsPath.

(** ** numpy *)

Module Numpy.

(** An array: its shape and its elements in row-major order. *)
Record ndarray : Type := mk_ndarray {
  shape : list nat;
  data : list R
}.

Definition ndim (a : ndarray) : nat := List.length (shape a).

Definition flatten (a : ndarray) : list R := data a.

Definition ravel {A} (xs : list A) : list A := xs.

Definition Rleb (x y : R) : bool := if Rle_dec x y then true else false.
Definition Rltb (x y : R) : bool := if Rlt_dec x y then true else false.

(** [np.linspace(start, stop, num)] with the default [endpoint=True]:
    [arange(0, num) * step + start] with [step = (stop - start) / (num - 1)],
    the last element then overwritten with [stop]. *)
Definition linspace (start stop : R) (num : nat) : list R :=
  match num with
  | O => []
  | S O => [start]
  | S div =>
      let step := (stop - start) / INR div in
      map (fun i => INR i * step + start) (seq 0 div) ++ [stop]
  end.

(** [np.meshgrid(x, y)] with the default [indexing='xy']: both results
    have shape [(len(y), len(x))]; row [i] of the first is [x], row [i] of
    the second is [y[i]] repeated. *)
Definition meshgrid (x y : list R) : ndarray * ndarray :=
  let sh := [List.length y; List.length x] in
  (mk_ndarray sh (List.concat (map (fun _ => x) y)),
   mk_ndarray sh (List.concat (map (fun yi => map (fun _ => yi) x) y))).

(** [a.min()] and [a.max()]: a [ValueError] on an array without
    elements. *)
Definition amin (a : ndarray) : result R :=
  match data a with
  | [] => Raise (ValueError "zero-size array to reduction operation minimum which has no identity")
  | v :: vs => Ok (fold_left Rmin vs v)
  end.

Definition amax (a : ndarray) : result R :=
  match data a with
  | [] => Raise (ValueError "zero-size array to reduction operation maximum which has no identity")
  | v :: vs => Ok (fold_left Rmax vs v)
  end.

(** [a.shape[i]] *)
Definition shape_at (a : ndarray) (i : nat) : result nat :=
  match nth_error (shape a) i with
  | Some n => Ok n
  | None => Raise (IndexError "tuple index out of range")
  end.

(** A double that is a real number, or [None] for nan. Among the
    operations the two files apply to real numbers only one is partial, the
    division in [Linalg.normalise]; its results and what is computed from
    them have this type. *)
Definition float64 : Type := option R.

Definition count_if (f : float64 -> bool) (a : list float64) : nat :=
  List.length (filter f a).

(** Membership of a bin: every bin is half-open [[lo, hi)] but the last
    one, which is closed [[lo, hi]]; nan is in no bin. *)
Definition in_bin (is_last : bool) (lo hi : R) (v : float64) : bool :=
  match v with
  | Some r => Rleb lo r && (if is_last then Rleb r hi else Rltb r hi)
  | None => false
  end.

(** The closed range [[lo, hi]]. *)
Definition in_range (lo hi : R) (v : float64) : bool := in_bin true lo hi v.

Definition is_nil {A} (l : list A) : bool :=
  match l with [] => true | _ => false end.

Fixpoint histogram_counts (a : list float64) (bin_edges : list R)
  : list nat :=
  match bin_edges with
  | lo :: ((hi :: rest) as tl) =>
      count_if (in_bin (is_nil rest) lo hi) a :: histogram_counts a tl
  | _ => []
  end.

(** [np.any(bin_edges[:-1] > bin_edges[1:])] negated. *)
Fixpoint monotonic (bin_edges : list R) : bool :=
  match bin_edges with
  | lo :: ((hi :: _) as tl) => Rleb lo hi && monotonic tl
  | _ => true
  end.

(** [np.histogram(a, bins)] for [bins] a sequence of edges. *)
Definition histogram (a : list float64) (bins : list R)
  : result (list nat * list R) :=
  if monotonic bins then Ok (histogram_counts a bins, bins)
  else Raise (ValueError "`bins` must increase monotonically, when an array").

(** [np.histogram(a, bins)] for [bins] a number of bins: the edges are
    [bins + 1] equally spaced points from the smallest to the largest
    element (from 0 to 1 for an empty array, and half a unit further on
    each side when all elements are equal). *)
Definition histogram_bins (a : list R) (bins : Z)
  : result (list nat * list R) :=
  if (bins <? 1)%Z
  then Raise (ValueError "`bins` must be positive, when an integer")
  else
    let '(first_edge, last_edge) :=
      match a with
      | [] => (0, 1)
      | v :: vs => (fold_left Rmin vs v, fold_left Rmax vs v)
      end in
    let '(first_edge, last_edge) :=
      if Req_dec_T first_edge last_edge
      then (first_edge - 0.5, last_edge + 0.5)
      else (first_edge, last_edge) in
    let bin_edges := linspace first_edge last_edge (S (Z.to_nat bins)) in
    Ok (histogram_counts (map Some a) bin_edges, bin_edges).

(** The number of elements, [a.size], as the shape gives it. *)
Definition size (a : ndarray) : nat := fold_right Nat.mul 1%nat (shape a).


(** [np.degrees] *)
Definition degrees (x : R) : R := x * 180 / PI.

End Numpy.

(** ** ctapipe *)

Module Linalg.

Definition vec : Type := (R * R)%type.

(** [vec.dot(vec) ** .5] *)
Definition length (v : vec) : R := sqrt (fst v * fst v + snd v * snd v).

(** [vec / length(vec)]. Dividing a numpy array never raises
    [ZeroDivisionError], so the [except] branch of the function is dead:
    for a vector of length zero, which is the zero vector, both components
    are 0/0, that is nan ([None]). *)
Definition normalise (v : vec) : option vec :=
  if Req_dec_T (length v) 0 then None
  else Some (fst v / length v, snd v / length v).

End Linalg.

Module Hillas.

(** The fields of ctapipe's [MomentParameters] that the script reads. *)
Record MomentParameters : Type := mk_MomentParameters {
  cen_x : R;
  cen_y : R;
  length : R;
  width : R;
  psi : R
}.

End Hillas.

(** ** matplotlib *)

Module Mpl.

Import Numpy.

Inductive norm : Type :=
| Normalize (vmin vmax : R)
| LogNorm (vmin vmax : R).

(** A title, as set or as rewritten by ["{} ({:.2f}°)".format(title, deg)]. *)
Inductive text : Type :=
| Text (s : string)
| TextWithDegrees (t : text) (deg : R).

Inductive artist : Type :=
| PColor (ny nx : nat) (c : ndarray) (cmap : string) (n : norm)
| Colorbar
| Ellipse (xy : R * R) (width height angle : R) (color : string)
| Scatter (x y : R)
| HistStep (label : string) (values : list nat) (bins : list R)
| Legend.

Record Axes : Type := mk_Axes {
  position : nat;
  artists : list artist;
  title : text;
  xlabel : string;
  ylabel : string;
  xlim : option (R * R)
}.

Definition new_axes (pos : nat) : Axes :=
  mk_Axes pos [] (Text "") "" "" None.

Definition add_artist (a : artist) (ax : Axes) : Axes :=
  mk_Axes (position ax) (artists ax ++ [a]) (title ax) (xlabel ax)
          (ylabel ax) (xlim ax).

Definition set_title (t : text) (ax : Axes) : Axes :=
  mk_Axes (position ax) (artists ax) t (xlabel ax) (ylabel ax) (xlim ax).

Definition set_xlabel (s : string) (ax : Axes) : Axes :=
  mk_Axes (position ax) (artists ax) (title ax) s (ylabel ax) (xlim ax).

Definition set_ylabel (s : string) (ax : Axes) : Axes :=
  mk_Axes (position ax) (artists ax) (title ax) (xlabel ax) s (xlim ax).

Definition set_xlim (lo hi : R) (ax : Axes) : Axes :=
  mk_Axes (position ax) (artists ax) (title ax) (xlabel ax) (ylabel ax)
          (Some (lo, hi)).

(** [axis.pcolor(x, y, C, ...)] with [x], [y] the [ny] by [nx] index grids
    of [np.mgrid]: [C] has to be a 2D array. *)
Definition pcolor (ny nx : nat) (c : ndarray) (cmap : string) (n : norm)
           (ax : Axes) : result Axes :=
  if (ndim c =? 2)%nat then Ok (add_artist (PColor ny nx c cmap n) ax)
  else Raise (TypeError "Dimensions of C are incompatible with X and Y").

(** [axis.hist(x, histtype='step', label=..., bins=edges)]: the counts of
    [np.histogram], drawn as one step line; returns [(values, bins)] (the
    patches are the line just added). *)
Definition hist (x : list float64) (label : string) (bins : list R)
           (ax : Axes) : result (list nat * list R * Axes) :=
  match histogram x bins with
  | Ok (values, edges) =>
      Ok (values, edges, add_artist (HistStep label values edges) ax)
  | Raise e => Raise e
  end.

(** The histograms drawn on an axes, in drawing order. *)
Definition histograms (ax : Axes) : list (string * list nat * list R) :=
  flat_map (fun a => match a with
                     | HistStep label values bins => [(label, values, bins)]
                     | _ => []
                     end) (artists ax).

(** A figure: its axes and how often its canvas was drawn. *)
Record Figure : Type := mk_Figure {
  axes : list Axes;
  draws : nat
}.

Definition new_figure : Figure := mk_Figure [] 0.

(** [fig.clf()] *)
Definition clf (f : Figure) : Figure := mk_Figure [] (draws f).

(** [fig.canvas.draw()] *)
Definition canvas_draw (f : Figure) : Figure := mk_Figure (axes f) (S (draws f)).

(** [fig.add_subplot(pos)] *)
Definition add_subplot (pos : nat) (f : Figure) : Figure :=
  mk_Figure (axes f ++ [new_axes pos]) (draws f).

(** Replace the axes at subplot position [pos] (the axes object is shared
    between the figure and the caller's variable). *)
Definition update_axes (ax : Axes) (f : Figure) : Figure :=
  mk_Figure
    (map (fun a => if (position a =? position ax)%nat then ax else a) (axes f))
    (draws f).

End Mpl.

(** ** What happens outside: output, files, calls into [datapipe] *)

Module Trace.

Inductive event : Type :=
| Print (args : list value)
| Call (function : string) (argument : string)
| Savefig (fname : string) (fig : Mpl.Figure)
| Show.

End Trace.

(** ** The code that is not in the two files

    [isdir] is the file system as [os.path.isdir] sees it,
    [get_fits_files_list] is [common_functions.get_fits_files_list],
    the [hillas_parameters_*] are ctapipe's fits,
    [load_benchmark_images], [tailcut_clean_image], [wavelets_clean_image] and
    [assess_image_cleaning] are [datapipe]'s, and [perf_counter n] is the
    [n]-th reading of [time.perf_counter]. *)

Class Collaborators : Type := {
  isdir : string -> bool;
  get_fits_files_list : string -> result (list string);
  hillas_parameters_1 :
    list R -> list R -> list R -> result (Hillas.MomentParameters * list R);
  hillas_parameters_2 :
    list R -> list R -> list R -> result Hillas.MomentParameters;
  load_benchmark_images :
    string ->
    result (list (string * Numpy.ndarray) * list (string * string));
  tailcut_clean_image : Numpy.ndarray -> R -> R -> result Numpy.ndarray;
  wavelets_clean_image :
    Numpy.ndarray -> bool -> bool -> string -> result Numpy.ndarray;
  assess_image_cleaning :
    Numpy.ndarray -> Numpy.ndarray -> Numpy.ndarray -> string ->
    result (list R * list string);
  perf_counter : nat -> R
}.

(** ** utils/plot_perpendicular_hit_distribution.py *)

Module PlotPerpendicularHitDistribution.

Import Numpy Mpl Trace.

Section Script.

Context {ext : Collaborators}.

(** The store of the script: what it printed, saved and showed. *)
Definition World : Type := list event.

Definition emit (e : event) : M World unit :=
  modify (fun t => (t ++ [e])%list).

Definition COLOR_MAP : string := "gnuplot2".

(** [copy.deepcopy]: arrays are values here, a copy is the array. *)
Definition deepcopy (a : ndarray) : ndarray := a.

(** [np.arange(0, n, 1)] *)
Definition arange (n : nat) : list R := map INR (seq 0 n).

Definition plot_image (axis : Axes) (image_array : ndarray)
           (title : string) (plot_log_scale : bool) : result Axes :=
  match shape_at image_array 0, shape_at image_array 1 with
  | Ok ny, Ok nx =>
      match amin image_array, amax image_array with
      | Ok z_min, Ok z_max =>
          match
            (if plot_log_scale
             then pcolor ny nx image_array COLOR_MAP
                         (LogNorm 0.01 z_max) axis
             else pcolor ny nx image_array COLOR_MAP
                         (Normalize z_min z_max) axis)
          with
          | Ok axis =>
              Ok (set_title (Text title) (add_artist Colorbar axis))
          | Raise e => Raise e
          end
      | Raise e, _ => Raise e
      | _, Raise e => Raise e
      end
  | Raise e, _ => Raise e
  | _, Raise e => Raise e
  end.

Definition plot_ellipse_shower_on_image (axis : Axes)
           (image_array : ndarray) : M World Axes :=
  n0 <- lift (shape_at image_array 0) ;;
  n1 <- lift (shape_at image_array 1) ;;
  let x := arange n0 in
  let y := arange n1 in
  let '(xx, yy) := meshgrid x y in
  hillas <- lift (hillas_parameters_2 (flatten xx) (flatten yy)
                                      (flatten image_array)) ;;
  let centroid := (Hillas.cen_x hillas, Hillas.cen_y hillas) in
  let length := Hillas.length hillas in
  let width := Hillas.width hillas in
  let angle := Hillas.psi hillas in
  emit (Print [VStr "centroid:"; VFloats [fst centroid; snd centroid]]) ;;;
  emit (Print [VStr "length:"; VFloat length]) ;;;
  emit (Print [VStr "width:"; VFloat width]) ;;;
  emit (Print [VStr "angle:"; VFloat angle]) ;;;
  let axis :=
    add_artist (Ellipse centroid width length (degrees angle) "red") axis in
  let title := Mpl.title axis in
  let axis := set_title (TextWithDegrees title (degrees angle)) axis in
  (* Plot centroid *)
  let axis := add_artist (Scatter (fst centroid) (snd centroid)) axis in
  (* Plot shower axis *)
  let axis :=
    add_artist (Ellipse centroid width 0 (degrees angle) "blue") axis in
  let axis :=
    add_artist (Ellipse centroid 0 length (degrees angle) "blue") axis in
  (* Plot origin axis *)
  let axis := add_artist (Ellipse centroid 10 0 0 "black") axis in
  ret axis.

(** *** The perpendicular hit distribution *)

Definition size_m : R := 0.2.
Definition num_pixels_x : nat := 40.
Definition num_pixels_y : nat := 40.

(** [xx, yy = np.meshgrid(x, y)] on the hard coded pixel grid. *)
Definition pixel_grid : ndarray * ndarray :=
  let x := linspace (-0.142555996776) 0.142555996776 num_pixels_x in
  let y := linspace (-0.142555996776) 0.142555996776 num_pixels_y in
  meshgrid x y.

(** p1 = center of the ellipse *)
Definition p1 (h : Hillas.MomentParameters) : R * R :=
  (Hillas.cen_x h, Hillas.cen_y h).

(** p2 = intersection between the ellipse and the shower track *)
Definition p2 (h : Hillas.MomentParameters) : R * R :=
  let p1_x := Hillas.cen_x h in
  let p1_y := Hillas.cen_y h in
  let p2_x := p1_x + Hillas.length h * cos (Hillas.psi h + PI / 2) in
  let p2_y := p1_y + Hillas.length h * sin (Hillas.psi h + PI / 2) in
  (p2_x, p2_y).

(** slope of the shower track *)
Definition T (h : Hillas.MomentParameters) : option (R * R) :=
  let '(p1_x, p1_y) := p1 h in
  let '(p2_x, p2_y) := p2 h in
  Linalg.normalise (p1_x - p2_x, p1_y - p2_y).

(** [D = [p1_x - x, p1_y - y]] *)
Definition D (h : Hillas.MomentParameters) (x y : list R)
  : list R * list R :=
  let '(p1_x, p1_y) := p1 h in
  (map (fun xi => p1_x - xi) x, map (fun yi => p1_y - yi) y).

(** [a*s - b*t] and [a*s + b*t] where [s], [t] may be nan. *)
Definition cross (t : option (R * R)) (d : R * R) : float64 :=
  match t with
  | Some (t0, t1) => Some (fst d * t1 - snd d * t0)
  | None => None
  end.

Definition dot (t : option (R * R)) (d : R * R) : float64 :=
  match t with
  | Some (t0, t1) => Some (fst d * t0 + snd d * t1)
  | None => None
  end.

(** Pixels in the new base; [x] and [y] are the two flattened grids, of
    the same size, so that the element-wise products pair them up.
    [dl = D[0]*T[0] + D[1]*T[1]] *)
Definition dl (h : Hillas.MomentParameters) (x y : list R)
  : list float64 :=
  let '(D0, D1) := D h x y in
  map (dot (T h)) (combine D0 D1).

(** [dp = D[0]*T[1] - D[1]*T[0]] *)
Definition dp (h : Hillas.MomentParameters) (x y : list R)
  : list float64 :=
  let '(D0, D1) := D h x y in
  map (cross (T h)) (combine D0 D1).

(** The body of [for k, signal in {...}.items()]. *)
Definition hit_distribution_step (hillas : list (string * Hillas.MomentParameters))
           (xx yy : ndarray) (axis : Axes) (item : string * ndarray)
  : M World Axes :=
  let '(k, signal) := item in
  h <- lift (getitem hillas k) ;;
  let x := flatten xx in
  let y := flatten yy in
  let dl := dl h x y in
  let dp := dp h x y in
  r <- lift (hist (ravel dp) k (linspace (- size_m) size_m 31) axis) ;;
  let '(values, bins, axis) := r in
  ret axis.

Definition plot_perpendicular_hit_distribution (axis : Axes)
           (image_array : ndarray) (title : string) : M World Axes :=
  let ref_image_array := deepcopy image_array in
  let cleaned_image_array := deepcopy image_array in
  let '(xx, yy) := pixel_grid in
  (* Based on Tino's evaluate_cleaning.py (l. 277) *)
  h_ref <- lift (hillas_parameters_1 (flatten xx) (flatten yy)
                                     (flatten ref_image_array)) ;;
  let hillas := [("ref.", fst h_ref)] in
  h_cleaned <- lift (hillas_parameters_1 (flatten xx) (flatten yy)
                                         (flatten cleaned_image_array)) ;;
  let hillas := (hillas ++ [("cleaned", fst h_cleaned)])%list in
  axis <- for_each [("ref.", ref_image_array);
                    ("cleaned", cleaned_image_array)]
                   (hit_distribution_step hillas xx yy) axis ;;
  let axis := set_xlim (- size_m) size_m axis in
  let axis := set_xlabel "Distance to the shower axis (m)" axis in
  let axis := set_ylabel "Hits" axis in
  let axis := add_artist Legend axis in
  ret (set_title (Text title) axis).

(** *** [main] *)

(** What [argparse] hands over. *)
Record Args : Type := mk_Args {
  quiet : bool;
  output : option string;
  fileargs : list string
}.

(** The names bound at module level when [main] runs: the imports, the
    constant and the functions of the file. *)
Definition module_globals : list (string * value) :=
  [("common", VModule "common_functions");
   ("argparse", VModule "argparse");
   ("os", VModule "os");
   ("np", VModule "numpy");
   ("plt", VModule "matplotlib.pyplot");
   ("Ellipse", VClass "matplotlib.patches.Ellipse");
   ("LogNorm", VClass "matplotlib.colors.LogNorm");
   ("copy", VModule "copy");
   ("images", VModule "datapipe.io.images");
   ("linalg", VModule "ctapipe.utils.linalg");
   ("u", VModule "astropy.units");
   ("hillas_parameters_1", VFunction "ctapipe.image.hillas.hillas_parameters_1");
   ("hillas_parameters_2", VFunction "ctapipe.image.hillas.hillas_parameters_2");
   ("COLOR_MAP", VStr COLOR_MAP);
   ("plot_image", VFunction "plot_image");
   ("plot_ellipse_shower_on_image", VFunction "plot_ellipse_shower_on_image");
   ("plot_perpendicular_hit_distribution",
    VFunction "plot_perpendicular_hit_distribution");
   ("main", VFunction "main")].

(** Reading a name that [main] never assigns: it is looked up at module
    level (no builtin has any of the names the file reads this way). *)
Definition load_global (name : string) : result value :=
  match getitem module_globals name with
  | Ok v => Ok v
  | Raise _ => Raise (NameError name)
  end.

Definition not_2d_message : string :=
  "Unexpected error: the input FITS file should contain a 2D array.".

(** The body of [for input_file_path in input_file_path_list]; the local
    [output] is read and assigned in it, and is carried from one
    iteration to the next. *)
Definition process_file (quiet : bool) (output : option string)
           (input_file_path : string) : M World (option string) :=
  (* READ THE INPUT FILE *)
  emit (Call "images.load_benchmark_images" input_file_path) ;;;
  loaded <- lift (load_benchmark_images input_file_path) ;;
  let '(fits_images_dict, fits_metadata_dict) := loaded in
  input_img <- lift (getitem fits_images_dict "input_image") ;;
  reference_img <- lift (getitem fits_images_dict "reference_image") ;;
  if negb (ndim input_img =? 2)%nat then raise (Exception not_2d_message)
  else if negb (ndim reference_img =? 2)%nat
  then raise (Exception not_2d_message)
  else
    (* ASSESS OR PRINT THE CLEANED IMAGE *)
    let ax1 := new_axes 121 in
    let ax2 := new_axes 122 in
    ax1 <- lift (plot_image ax1 reference_img "Reference image" true) ;;
    ax1 <- plot_ellipse_shower_on_image ax1 reference_img ;;
    ax2 <- plot_perpendicular_hit_distribution
             ax2 reference_img "Perpendicular hit distribution" ;;
    let fig := mk_Figure [ax1; ax2] 0 in
    (* PLOT AND SAVE *)
    let base_file_path := OsPath.basename input_file_path in
    let base_file_path := fst (OsPath.splitext base_file_path) in
    let output :=
      match output with
      | None => (base_file_path ++ ".pdf")%string
      | Some o => o
      end in
    emit (Savefig output fig) ;;;
    (if negb quiet then emit Show else ret tt) ;;;
    ret (Some output).

(** The body of [for input_file_or_dir_path in ...]. *)
Definition process_arg (quiet : bool) (output : option string)
           (input_file_or_dir_path : string) : M World (option string) :=
  input_file_path_list <-
    (if isdir input_file_or_dir_path then
       input_directory_path <- lift (load_global "input_directory_path") ;;
       match input_directory_path with
       | VStr d =>
           emit (Call "common.get_fits_files_list" d) ;;;
           lift (get_fits_files_list d)
       | _ => raise (TypeError "expected str, bytes or os.PathLike object")
       end
     else ret [input_file_or_dir_path]) ;;
  for_each input_file_path_list (process_file quiet) output.

Definition main (args : Args) : M World unit :=
  let quiet := quiet args in
  let output := output args in
  let input_file_or_dir_path_list := fileargs args in
  for_each input_file_or_dir_path_list (process_arg quiet) output ;;;
  ret tt.

End Script.

End PlotPerpendicularHitDistribution.

(** ** utils/gui/benchmark/benchmark_plots_container.py *)

Module BenchmarkPlotsContainer.

Import Numpy Mpl Trace.

Definition DEFAULT_COLOR_MAP : string := "gnuplot2".

(** The attributes of [self]; the two widgets are kept by their state (the
    text of the entry, whether the switch is active). *)
Record Container : Type := mk_Container {
  input_directory_path : string;
  current_file_path : option string;
  kill_isolated_pixels : bool;
  fig : Figure;
  color_map : string;
  show_color_bar : bool;
  wavelets_options_entry : string;
  kill_isolated_pixels_switch : bool
}.

(** The store: the container, what was printed and called, and how many
    times the clock was read. *)
Record World : Type := mk_World {
  self : Container;
  trace : list event;
  ticks : nat
}.

Definition set_fig (f : Figure) (c : Container) : Container :=
  mk_Container (input_directory_path c) (current_file_path c)
               (kill_isolated_pixels c) f (color_map c) (show_color_bar c)
               (wavelets_options_entry c) (kill_isolated_pixels_switch c).

Definition set_current_file_path (p : option string) (c : Container)
  : Container :=
  mk_Container (input_directory_path c) p
               (kill_isolated_pixels c) (fig c) (color_map c)
               (show_color_bar c) (wavelets_options_entry c)
               (kill_isolated_pixels_switch c).

Definition set_kill_isolated_pixels (b : bool) (c : Container) : Container :=
  mk_Container (input_directory_path c) (current_file_path c)
               b (fig c) (color_map c) (show_color_bar c)
               (wavelets_options_entry c) (kill_isolated_pixels_switch c).

(** [__init__] *)
Definition init (input_directory_path : string) : Container :=
  mk_Container input_directory_path None false new_figure
               DEFAULT_COLOR_MAP true "-K -k -C1 -m3 -s3 -n4" false.

Section Widget.

Context {ext : Collaborators}.

Definition emit (e : event) : M World unit :=
  modify (fun w => mk_World (self w) (trace w ++ [e]) (ticks w)).

Definition modify_self (f : Container -> Container) : M World unit :=
  modify (fun w => mk_World (f (self w)) (trace w) (ticks w)).

Definition modify_fig (f : Figure -> Figure) : M World unit :=
  modify_self (fun c => set_fig (f (fig c)) c).

(** [time.perf_counter()] *)
Definition read_perf_counter : M World R :=
  fun w => (Ok (perf_counter (ticks w)),
            mk_World (self w) (trace w) (S (ticks w))).

(** [a.astype('float64', copy=True)] *)
Definition astype_float64 (a : ndarray) : ndarray := a.

Definition not_2d_message : string :=
  "Unexpected error: the input FITS file should contain a 2D array.".

Definition is_AssessError (e : exn) : bool :=
  match e with AssessError _ => true | _ => false end.

Definition clear_figure : M World unit :=
  modify_fig clf ;;;
  modify_fig canvas_draw.

(** [_draw_image], on the axes object [axis]. *)
Definition _draw_image (self : Container) (axis : Axes)
           (image_array : ndarray) (title : string) : result Axes :=
  match shape_at image_array 0, shape_at image_array 1 with
  | Ok ny, Ok nx =>
      match amin image_array, amax image_array with
      | Ok z_min, Ok z_max =>
          match pcolor ny nx image_array (color_map self)
                       (Normalize z_min z_max) axis with
          | Ok axis =>
              let axis :=
                if show_color_bar self then add_artist Colorbar axis
                else axis in
              Ok (set_title (Text title) axis)
          | Raise e => Raise e
          end
      | Raise e, _ => Raise e
      | _, Raise e => Raise e
      end
  | Raise e, _ => Raise e
  | _, Raise e => Raise e
  end.

(** A call [self._draw_image(ax, image, title)] where [ax] is the axes
    that [add_subplot(pos)] returned: the axes of the figure change. (The
    axes are always there, [update_plots] has just added them.) *)
Definition draw_image_at (pos : nat) (image_array : ndarray)
           (title : string) : M World unit :=
  w <- get ;;
  match find (fun a => (position a =? pos)%nat) (axes (fig (self w))) with
  | Some axis =>
      axis <- lift (_draw_image (self w) axis image_array title) ;;
      modify_fig (update_axes axis)
  | None => raise (ValueError "no such axes")
  end.

Definition update_plots : M World unit :=
  w <- get ;;
  match current_file_path (self w) with
  | Some path =>
      (* Read the selected file *)
      emit (Call "images.load_benchmark_images" path) ;;;
      loaded <- lift (load_benchmark_images path) ;;
      let '(fits_images_dict, fits_metadata_dict) := loaded in
      input_img <- lift (getitem fits_images_dict "input_image") ;;
      reference_img <- lift (getitem fits_images_dict "reference_image") ;;
      if negb (ndim input_img =? 2)%nat
      then raise (Exception not_2d_message)
      else if negb (ndim reference_img =? 2)%nat
      then raise (Exception not_2d_message)
      else
        (* Tailcut *)
        let input_img_copy := astype_float64 input_img in
        initial_time <- read_perf_counter ;;
        emit (Call "tailcut.clean_image" path) ;;;
        tailcut_cleaned_img <-
          lift (tailcut_clean_image input_img_copy 10 5) ;;
        now <- read_perf_counter ;;
        let tailcut_execution_time := now - initial_time in
        (* Wavelets *)
        let input_img_copy := astype_float64 input_img in
        let option_string := wavelets_options_entry (self w) in
        emit (Print [VStr option_string]) ;;;
        initial_time <- read_perf_counter ;;
        emit (Call "wavelets.clean_image" path) ;;;
        wavelets_cleaned_img <-
          lift (wavelets_clean_image input_img_copy
                  (kill_isolated_pixels (self w)) true option_string) ;;
        now <- read_perf_counter ;;
        let wavelets_execution_time := now - initial_time in
        (* Execution time *)
        emit (Print [VStr "Tailcut execution time: ";
                     VFloat tailcut_execution_time]) ;;;
        emit (Print [VStr "Wavelets execution time: ";
                     VFloat wavelets_execution_time]) ;;;
        (* Tailcut scores *)
        try_except
          (emit (Call "assess.assess_image_cleaning" "tailcut") ;;;
           scores <- lift (assess_image_cleaning
                             input_img tailcut_cleaned_img reference_img
                             "all") ;;
           emit (Print [VStr "TC:"; VFloats (fst scores);
                        VStrs (snd scores)]))
          is_AssessError
          (emit (Print [VStr "TC: "; VClass "AssessError"])) ;;;
        (* Wavelets scores *)
        try_except
          (emit (Call "assess.assess_image_cleaning" "wavelets") ;;;
           scores <- lift (assess_image_cleaning
                             input_img wavelets_cleaned_img reference_img
                             "all") ;;
           emit (Print [VStr "WT:"; VFloats (fst scores);
                        VStrs (snd scores)]))
          is_AssessError
          (emit (Print [VStr "WT: "; VClass "AssessError"])) ;;;
        (* Update the widget *)
        clear_figure ;;;
        modify_fig (add_subplot 221) ;;;
        modify_fig (add_subplot 222) ;;;
        modify_fig (add_subplot 223) ;;;
        modify_fig (add_subplot 224) ;;;
        draw_image_at 221 input_img "Input" ;;;
        draw_image_at 222 reference_img "Reference" ;;;
        draw_image_at 223 tailcut_cleaned_img "Tailcut" ;;;
        draw_image_at 224 wavelets_cleaned_img "Wavelets" ;;;
        modify_fig canvas_draw
  | None => ret tt
  end.

(** [_draw_histogram]: the histogram of the pixel values over
    [math.ceil(max - min)] bins, and the x limits it sets. (The axes keep
    the limits; the bars themselves are not part of what is recorded of an
    axes, they are the counts over the bins that are returned.) *)
Definition _draw_histogram (axis : Axes) (image_array : ndarray)
  : result (list nat * list R * Axes) :=
  match amax image_array, amin image_array with
  | Ok z_max, Ok z_min =>
      let bins := Zceil (z_max - z_min) in
      match histogram_bins (ravel (data image_array)) bins with
      | Ok (values, bins) => Ok (values, bins, set_xlim z_min z_max axis)
      | Raise e => Raise e
      end
  | Raise e, _ => Raise e
  | _, Raise e => Raise e
  end.

Definition kill_isolated_pixels_switch_callback : M World unit :=
  w <- get ;;
  (if kill_isolated_pixels_switch (self w)
   then modify_self (set_kill_isolated_pixels true)
   else modify_self (set_kill_isolated_pixels false)) ;;;
  update_plots.

Definition selection_changed_callback (file_name : string)
  : M World unit :=
  w <- get ;;
  modify_self (set_current_file_path
                 (Some (OsPath.join (input_directory_path (self w))
                                    file_name))) ;;;
  update_plots.

End Widget.

End BenchmarkPlotsContainer.

(** ** Concrete collaborators, to run the programs on *)

Module Samples.

Import Numpy.

(** A 2 by 2 image and a one-dimensional array. *)
Definition image_2d : ndarray := mk_ndarray [2; 2]%nat [1; 2; 3; 4].
Definition image_1d : ndarray := mk_ndarray [4]%nat [1; 2; 3; 4].

(** An upright ellipse centred on the origin. *)
Definition upright : Hillas.MomentParameters :=
  Hillas.mk_MomentParameters 0 0 1 (1 / 2) 0.

(** A world in which every path but ["data"] is a file, files named
    ["bad.fits"] hold a one-dimensional input image, all other files hold
    [image_2d] twice, every fit returns [upright], cleaning returns its
    input, and every assessment fails. *)
#[local] Instance collaborators : Collaborators := {|
  isdir := fun p => String.eqb p "data";
  get_fits_files_list := fun _ => Ok [];
  hillas_parameters_1 := fun _ _ _ => Ok (upright, []);
  hillas_parameters_2 := fun _ _ _ => Ok upright;
  load_benchmark_images := fun p =>
    if String.eqb p "bad.fits"
    then Ok ([("input_image", image_1d); ("reference_image", image_2d)], [])
    else Ok ([("input_image", image_2d); ("reference_image", image_2d)], []);
  tailcut_clean_image := fun img _ _ => Ok img;
  wavelets_clean_image := fun img _ _ _ => Ok img;
  assess_image_cleaning := fun _ _ _ _ =>
    Raise (AssessError "empty reference image");
  perf_counter := INR
|}.

End Samples.

(** ** What the programs are expected to leave behind

    Names for the pieces of the outcomes that the properties speak about. *)

Module Outcomes.

Import Numpy Mpl Trace PlotPerpendicularHitDistribution.

(** [xx.flatten()], [yy.flatten()] and the bin edges of the plot. *)
Definition grid_x : list R := flatten (fst pixel_grid).
Definition grid_y : list R := flatten (snd pixel_grid).
Definition hit_bins : list R := linspace (- size_m) size_m 31.

(** The axes after the two histograms of the fit [h] were drawn and the
    labels set. *)
Definition hit_distribution_axes (h : Hillas.MomentParameters)
           (title : string) (axis : Axes) : Axes :=
  let values := histogram_counts (dp h grid_x grid_y) hit_bins in
  set_title (Text title)
    (add_artist Legend
       (set_ylabel "Hits"
          (set_xlabel "Distance to the shower axis (m)"
             (set_xlim (- size_m) size_m
                (add_artist (HistStep "cleaned" values hit_bins)
                   (add_artist (HistStep "ref." values hit_bins)
                               axis)))))).

(** What the claim on the binning asks of one histogram, [dps] being
    the transverse distances of the pixels. *)
Definition binned_as_specified (dps : list float64) (values : list nat)
           (bins : list R) : Prop :=
  List.length values = 30%nat /\
  List.length bins = 31%nat /\
  nth 0 bins 0 = -0.2 /\
  nth 30 bins 0 = 0.2 /\
  (forall i, (i < 30)%nat -> nth (S i) bins 0 - nth i bins 0 = 0.4 / 30) /\
  list_sum values = count_if (in_range (-0.2) 0.2) dps /\
  (forall i, (i < 30)%nat ->
     nth i values 0%nat =
     count_if (in_bin (i =? 29)%nat (nth i bins 0) (nth (S i) bins 0))
              dps).

(** The upright ellipse moved one unit up: same [dp], other [dl]. *)
Definition upright_moved : Hillas.MomentParameters :=
  Hillas.mk_MomentParameters 0 1 1 (1 / 2) 0.

(** What [plot_ellipse_shower_on_image] prints and draws for the fit
    [h]. *)
Definition ellipse_prints (h : Hillas.MomentParameters) : list event :=
  [Print [VStr "centroid:"; VFloats [Hillas.cen_x h; Hillas.cen_y h]];
   Print [VStr "length:"; VFloat (Hillas.length h)];
   Print [VStr "width:"; VFloat (Hillas.width h)];
   Print [VStr "angle:"; VFloat (Hillas.psi h)]].

Definition ellipse_axes (h : Hillas.MomentParameters) (axis : Axes)
  : Axes :=
  let centroid := (Hillas.cen_x h, Hillas.cen_y h) in
  let deg := degrees (Hillas.psi h) in
  add_artist (Ellipse centroid 10 0 0 "black")
    (add_artist (Ellipse centroid 0 (Hillas.length h) deg "blue")
       (add_artist (Ellipse centroid (Hillas.width h) 0 deg "blue")
          (add_artist (Scatter (Hillas.cen_x h) (Hillas.cen_y h))
             (set_title (TextWithDegrees (title axis) deg)
                (add_artist
                   (Ellipse centroid (Hillas.width h) (Hillas.length h)
                            deg "red") axis))))).

(** The names of the files written so far. *)
Definition saved_files (w : list event) : list string :=
  flat_map (fun e => match e with
                     | Savefig fname _ => [fname]
                     | _ => []
                     end) w.

(** The name [process_file] saves under. *)
Definition output_name (output : option string) (input_file_path : string)
  : string :=
  match output with
  | None =>
      (fst (OsPath.splitext (OsPath.basename input_file_path)) ++ ".pdf")%string
  | Some o => o
  end.

(** What is printed after an assessment: the scores, or the report of
    the error. *)
Definition report (tag : string) (r : result (list R * list string))
  : event :=
  match r with
  | Ok scores =>
      Print [VStr (tag ++ ":"); VFloats (fst scores); VStrs (snd scores)]
  | Raise _ => Print [VStr (tag ++ ": "); VClass "AssessError"]
  end.

(** An assessment that returned, or raised the error that the two
    [except] clauses name. *)
Definition returned_or_assess_error {A} (r : result A) : Prop :=
  match r with
  | Ok _ => True
  | Raise e => BenchmarkPlotsContainer.is_AssessError e = true
  end.

Section WithCollaborators.

Context {ext : Collaborators}.

(** What one update of the container prints and calls. *)
Definition trace_of_update (w : BenchmarkPlotsContainer.World) (path : string)
           (r_tc r_wt : result (list R * list string)) : list event :=
  [Call "images.load_benchmark_images" path;
   Call "tailcut.clean_image" path;
   Print [VStr (BenchmarkPlotsContainer.wavelets_options_entry
                  (BenchmarkPlotsContainer.self w))];
   Call "wavelets.clean_image" path;
   Print [VStr "Tailcut execution time: ";
          VFloat (perf_counter (S (BenchmarkPlotsContainer.ticks w))
                  - perf_counter (BenchmarkPlotsContainer.ticks w))];
   Print [VStr "Wavelets execution time: ";
          VFloat (perf_counter (S (S (S (BenchmarkPlotsContainer.ticks w))))
                  - perf_counter (S (S (BenchmarkPlotsContainer.ticks w))))];
   Call "assess.assess_image_cleaning" "tailcut";
   report "TC" r_tc;
   Call "assess.assess_image_cleaning" "wavelets";
   report "WT" r_wt].

End WithCollaborators.

(** The sample world after ["gamma.fits"] was selected. *)
Definition selected : BenchmarkPlotsContainer.World :=
  BenchmarkPlotsContainer.mk_World
    (BenchmarkPlotsContainer.set_current_file_path
       (Some "benchmark/gamma.fits")
       (BenchmarkPlotsContainer.init "benchmark")) [] 0.

(** The sample container after ["bad.fits"], whose input image is
    one-dimensional, was selected. *)
Definition selected_bad : BenchmarkPlotsContainer.World :=
  BenchmarkPlotsContainer.mk_World
    (BenchmarkPlotsContainer.set_current_file_path
       (Some "bad.fits") (BenchmarkPlotsContainer.init "")) [] 0.

End Outcomes.

(** ** More sample worlds and names, for the properties of the code around
    the ones above *)

Module Scenarios.

Import Numpy Mpl Trace.

(** A fit of length zero: a single lit pixel. *)
Definition point_like : Hillas.MomentParameters :=
  Hillas.mk_MomentParameters 0 0 0 0 0.

(** The upright ellipse, twice as long and wide. *)
Definition upright_long : Hillas.MomentParameters :=
  Hillas.mk_MomentParameters 0 0 2 1 0.

(** 2D images of other shapes: one row, one column, three by three; and a
    2D image all of whose pixels are 5. *)
Definition row_image : ndarray := mk_ndarray [1; 4]%nat [1; 2; 3; 4].
Definition column_image : ndarray := mk_ndarray [4; 1]%nat [1; 2; 3; 4].
Definition square_image : ndarray :=
  mk_ndarray [3; 3]%nat [0; 1; 0; 1; 8; 1; 0; 1; 0].
Definition constant_image : ndarray := mk_ndarray [2; 2]%nat [5; 5; 5; 5].

(** A second world. ["data"] is a directory. ["missing.fits"] cannot be
    loaded, ["half.fits"] holds no reference image, ["row.fits"],
    ["column.fits"] and ["square.fits"] hold the images of these shapes and
    every other file holds [Samples.image_2d]. The pixel-grid fit returns
    [point_like]. Tailcut cleaning turns a one-row image into a
    one-dimensional array, wavelets cleaning fails on a one-column image,
    and the assessment fails, with an error that is no assessment error,
    on a three by three input. *)
#[local] Instance collaborators : Collaborators := {|
  isdir := fun p => String.eqb p "data";
  get_fits_files_list := fun _ => Ok [];
  hillas_parameters_1 := fun _ _ _ => Ok (point_like, []);
  hillas_parameters_2 := fun _ _ _ => Ok Samples.upright;
  load_benchmark_images := fun p =>
    if String.eqb p "missing.fits"
    then Raise (Exception "No such file or directory")
    else if String.eqb p "half.fits"
    then Ok ([("input_image", Samples.image_1d)], [])
    else if String.eqb p "row.fits"
    then Ok ([("input_image", row_image); ("reference_image", row_image)], [])
    else if String.eqb p "column.fits"
    then Ok ([("input_image", column_image);
              ("reference_image", column_image)], [])
    else if String.eqb p "square.fits"
    then Ok ([("input_image", square_image);
              ("reference_image", square_image)], [])
    else Ok ([("input_image", Samples.image_2d);
              ("reference_image", Samples.image_2d)], []);
  tailcut_clean_image := fun img _ _ =>
    match shape img with
    | [1%nat; _] => Ok Samples.image_1d
    | _ => Ok img
    end;
  wavelets_clean_image := fun img _ _ _ =>
    match shape img with
    | [_; 1%nat] => Raise (ValueError "mr_filter failed")
    | _ => Ok img
    end;
  assess_image_cleaning := fun input_img _ _ _ =>
    match shape input_img with
    | [3%nat; 3%nat] => Raise (ValueError "operands could not be broadcast")
    | _ => Ok ([0.5], ["mse"])
    end;
  perf_counter := INR
|}.

(** *** What a run of the script leaves in its trace *)




(** A string without the character [c]. *)
Fixpoint without (c : ascii) (s : string) : Prop :=
  match s with
  | EmptyString => True
  | String a s' => a <> c /\ without c s'
  end.

Section WithCollaborators.

Context {ext : Collaborators}.


(** *** The update of the container, in three parts *)

(** The store after the file was loaded and cleaned twice. *)
Definition cleaned_world (w : BenchmarkPlotsContainer.World) (path : string)
  : BenchmarkPlotsContainer.World :=
  BenchmarkPlotsContainer.mk_World
    (BenchmarkPlotsContainer.self w)
    (BenchmarkPlotsContainer.trace w ++
     [Call "images.load_benchmark_images" path;
      Call "tailcut.clean_image" path;
      Print [VStr (BenchmarkPlotsContainer.wavelets_options_entry
                     (BenchmarkPlotsContainer.self w))];
      Call "wavelets.clean_image" path;
      Print [VStr "Tailcut execution time: ";
             VFloat (perf_counter (S (BenchmarkPlotsContainer.ticks w))
                     - perf_counter (BenchmarkPlotsContainer.ticks w))];
      Print [VStr "Wavelets execution time: ";
             VFloat
               (perf_counter (S (S (S (BenchmarkPlotsContainer.ticks w))))
                - perf_counter (S (S (BenchmarkPlotsContainer.ticks w))))]])
    (S (S (S (S (BenchmarkPlotsContainer.ticks w))))).

(** One [try: ... except AssessError: ...] block of [update_plots]. *)
Definition assess_and_report (tag name : string)
           (input_img cleaned_img reference_img : ndarray)
  : M BenchmarkPlotsContainer.World unit :=
  try_except
    (BenchmarkPlotsContainer.emit
       (Call "assess.assess_image_cleaning" name) ;;;
     scores <- lift (assess_image_cleaning input_img cleaned_img
                                           reference_img "all") ;;
     BenchmarkPlotsContainer.emit
       (Print [VStr (tag ++ ":"); VFloats (fst scores); VStrs (snd scores)]))
    BenchmarkPlotsContainer.is_AssessError
    (BenchmarkPlotsContainer.emit
       (Print [VStr (tag ++ ": "); VClass "AssessError"])).

(** The last part of [update_plots], from [self.clear_figure()] on. *)
Definition update_the_widget
           (input_img reference_img tailcut_cleaned_img wavelets_cleaned_img
            : ndarray)
  : M BenchmarkPlotsContainer.World unit :=
  BenchmarkPlotsContainer.clear_figure ;;;
  BenchmarkPlotsContainer.modify_fig (add_subplot 221) ;;;
  BenchmarkPlotsContainer.modify_fig (add_subplot 222) ;;;
  BenchmarkPlotsContainer.modify_fig (add_subplot 223) ;;;
  BenchmarkPlotsContainer.modify_fig (add_subplot 224) ;;;
  BenchmarkPlotsContainer.draw_image_at 221 input_img "Input" ;;;
  BenchmarkPlotsContainer.draw_image_at 222 reference_img "Reference" ;;;
  BenchmarkPlotsContainer.draw_image_at 223 tailcut_cleaned_img "Tailcut" ;;;
  BenchmarkPlotsContainer.draw_image_at 224 wavelets_cleaned_img "Wavelets" ;;;
  BenchmarkPlotsContainer.modify_fig canvas_draw.

End WithCollaborators.

(** *** What an action on the container leaves alone *)

(** From [w] to [w'] the selection and the settings are the same, the
    trace has only grown and the clock has not gone back. *)
Definition settings_kept (w w' : BenchmarkPlotsContainer.World) : Prop :=
  let c := BenchmarkPlotsContainer.self w in
  let c' := BenchmarkPlotsContainer.self w' in
  BenchmarkPlotsContainer.input_directory_path c'
  = BenchmarkPlotsContainer.input_directory_path c /\
  BenchmarkPlotsContainer.current_file_path c'
  = BenchmarkPlotsContainer.current_file_path c /\
  BenchmarkPlotsContainer.kill_isolated_pixels c'
  = BenchmarkPlotsContainer.kill_isolated_pixels c /\
  BenchmarkPlotsContainer.color_map c'
  = BenchmarkPlotsContainer.color_map c /\
  BenchmarkPlotsContainer.show_color_bar c'
  = BenchmarkPlotsContainer.show_color_bar c /\
  BenchmarkPlotsContainer.wavelets_options_entry c'
  = BenchmarkPlotsContainer.wavelets_options_entry c /\
  BenchmarkPlotsContainer.kill_isolated_pixels_switch c'
  = BenchmarkPlotsContainer.kill_isolated_pixels_switch c /\
  (exists evs, BenchmarkPlotsContainer.trace w'
               = BenchmarkPlotsContainer.trace w ++ evs) /\
  (BenchmarkPlotsContainer.ticks w <= BenchmarkPlotsContainer.ticks w')%nat.

(** An action all of whose outcomes keep the settings. *)
Definition keeps {A} (m : M BenchmarkPlotsContainer.World A) : Prop :=
  forall w, settings_kept w (snd (m w)).

(** The sample container with the switch turned on and no file selected,
    and the container of the second world after a file was selected. *)
Definition switched_on : BenchmarkPlotsContainer.World :=
  BenchmarkPlotsContainer.mk_World
    (BenchmarkPlotsContainer.mk_Container
       "benchmark" None false new_figure "gnuplot2" true
       "-K -k -C1 -m3 -s3 -n4" true) [] 0.

Definition selecting (path : string) : BenchmarkPlotsContainer.World :=
  BenchmarkPlotsContainer.mk_World
    (BenchmarkPlotsContainer.set_current_file_path
       (Some path) (BenchmarkPlotsContainer.init "")) [] 0.

End Scenarios.

(* ================================================================== *)
(** * Part II: properties *)
(* ================================================================== *)

(** ** Facts about the embedded numpy functions *)

Module NumpyFacts.

Import Numpy.

Lemma Rleb_true (x y : R) : Rleb x y = true <-> x <= y.
Proof.
  unfold Rleb; destruct (Rle_dec x y); split; intros; auto; discriminate.
Qed.

Lemma Rleb_false (x y : R) : Rleb x y = false <-> y < x.
Proof.
  unfold Rleb; destruct (Rle_dec x y); split; intros;
    try discriminate; try lra; auto.
Qed.

Lemma Rltb_true (x y : R) : Rltb x y = true <-> x < y.
Proof.
  unfold Rltb; destruct (Rlt_dec x y); split; intros; auto; discriminate.
Qed.

Lemma Rltb_false (x y : R) : Rltb x y = false <-> y <= x.
Proof.
  unfold Rltb; destruct (Rlt_dec x y); split; intros;
    try discriminate; try lra; auto.
Qed.

(** Decide a comparison between two numerals. *)
Ltac Rcompare :=
  repeat match goal with
    | |- context [Rleb ?x ?y] =>
        first [ replace (Rleb x y) with true
                  by (symmetry; apply Rleb_true; lra)
              | replace (Rleb x y) with false
                  by (symmetry; apply Rleb_false; lra) ]
    | |- context [Rltb ?x ?y] =>
        first [ replace (Rltb x y) with true
                  by (symmetry; apply Rltb_true; lra)
              | replace (Rltb x y) with false
                  by (symmetry; apply Rltb_false; lra) ]
    end.


Lemma in_bin_half_open_spec lo hi v :
  in_bin false lo hi v = true <-> exists r, v = Some r /\ lo <= r < hi.
Proof.
  unfold in_bin; destruct v as [r|].
  - rewrite andb_true_iff, Rleb_true, Rltb_true. split.
    + intros [? ?]; exists r; auto.
    + intros (r' & E & ?); inversion E; subst; tauto.
  - split; [discriminate | intros (r & E & _); discriminate].
Qed.

Lemma count_if_cons f v a :
  count_if f (v :: a) = ((if f v then 1 else 0) + count_if f a)%nat.
Proof. unfold count_if; simpl; destruct (f v); reflexivity. Qed.

(** Two disjoint classes are counted separately. *)
Lemma count_if_split (f g h : float64 -> bool) (a : list float64) :
  (forall v, h v = f v || g v) ->
  (forall v, f v && g v = false) ->
  (count_if f a + count_if g a = count_if h a)%nat.
Proof.
  intros Hh Hd; induction a as [|v a IH]; [reflexivity|].
  rewrite !count_if_cons, Hh.
  specialize (Hd v); destruct (f v), (g v); simpl in *;
    try discriminate; lia.
Qed.

Lemma monotonic_cons lo hi tl :
  monotonic (lo :: hi :: tl) = true <->
  lo <= hi /\ monotonic (hi :: tl) = true.
Proof. simpl; rewrite andb_true_iff, Rleb_true; tauto. Qed.

Lemma last_default {A} (e : A) : forall tl d d',
  last (e :: tl) d = last (e :: tl) d'.
Proof.
  intros tl; revert e; induction tl as [|e' tl IH]; intros e d d';
    [reflexivity|].
  change (last (e :: e' :: tl) d) with (last (e' :: tl) d).
  change (last (e :: e' :: tl) d') with (last (e' :: tl) d').
  apply IH.
Qed.

Lemma monotonic_le_last : forall edges lo,
  monotonic (lo :: edges) = true -> lo <= last edges lo.
Proof.
  induction edges as [|hi tl IH]; intros lo H; [simpl; lra|].
  apply monotonic_cons in H; destruct H as [Hle Hm].
  specialize (IH hi Hm).
  destruct tl as [|e tl]; [simpl in *; lra|].
  change (last (hi :: e :: tl) lo) with (last (e :: tl) lo).
  rewrite (last_default e tl lo hi).
  lra.
Qed.

Lemma length_histogram_counts a : forall edges,
  List.length (histogram_counts a edges) = (List.length edges - 1)%nat.
Proof.
  induction edges as [|lo [|hi tl] IH]; try reflexivity.
  change (histogram_counts a (lo :: hi :: tl))
    with (count_if (in_bin (is_nil tl) lo hi) a
            :: histogram_counts a (hi :: tl)).
  simpl List.length in *. rewrite IH. lia.
Qed.

(** The count of bin [i] is the number of elements in [[e_i, e_(i+1))],
    or in [[e_i, e_(i+1)]] for the last bin. *)
Lemma nth_histogram_counts a : forall edges i,
  (S i < List.length edges)%nat ->
  nth i (histogram_counts a edges) 0%nat =
  count_if (in_bin (S (S i) =? List.length edges)%nat
                   (nth i edges 0) (nth (S i) edges 0)) a.
Proof.
  induction edges as [|lo [|hi tl] IH]; intros i Hi;
    try (simpl in Hi; lia).
  change (histogram_counts a (lo :: hi :: tl))
    with (count_if (in_bin (is_nil tl) lo hi) a
            :: histogram_counts a (hi :: tl)).
  destruct i as [|i].
  - simpl nth. destruct tl; reflexivity.
  - simpl List.length in Hi.
    change (nth (S i) (?x :: ?l) ?d) with (nth i l d).
    rewrite IH by (simpl; lia).
    reflexivity.
Qed.

Lemma list_sum_cons x l : list_sum (x :: l) = (x + list_sum l)%nat.
Proof. reflexivity. Qed.

(** Over increasing edges the counts add up to the number of elements
    between the first and the last edge, both included. *)
Lemma histogram_counts_total a : forall edges lo,
  edges <> [] ->
  monotonic (lo :: edges) = true ->
  list_sum (histogram_counts a (lo :: edges)) =
  count_if (in_range lo (last edges lo)) a.
Proof.
  induction edges as [|hi tl IH]; intros lo Hne Hm; [congruence|].
  change (histogram_counts a (lo :: hi :: tl))
    with (count_if (in_bin (is_nil tl) lo hi) a
            :: histogram_counts a (hi :: tl)).
  destruct tl as [|e tl].
  - cbn [is_nil last histogram_counts]. rewrite list_sum_cons.
    unfold in_range. simpl list_sum. rewrite Nat.add_0_r. reflexivity.
  - apply monotonic_cons in Hm; destruct Hm as [Hle Hm].
    rewrite list_sum_cons, (IH hi) by (auto; discriminate).
    pose proof (monotonic_le_last _ _ Hm) as Hlast.
    change (last (hi :: e :: tl) lo) with (last (e :: tl) lo).
    rewrite (last_default e tl lo hi).
    cbn [is_nil].
    apply count_if_split; intros [r|]; try reflexivity;
      unfold in_range, in_bin.
    + destruct (Rleb lo r) eqn:E1, (Rltb r hi) eqn:E2,
        (Rleb hi r) eqn:E3, (Rleb r (last (e :: tl) hi)) eqn:E4;
        try reflexivity; exfalso;
        repeat match goal with
          | H : Rleb _ _ = true |- _ => apply Rleb_true in H
          | H : Rleb _ _ = false |- _ => apply Rleb_false in H
          | H : Rltb _ _ = true |- _ => apply Rltb_true in H
          | H : Rltb _ _ = false |- _ => apply Rltb_false in H
          end; lra.
    + destruct (Rleb lo r) eqn:E1, (Rltb r hi) eqn:E2,
        (Rleb hi r) eqn:E3, (Rleb r (last (e :: tl) hi)) eqn:E4;
        try reflexivity; exfalso;
        repeat match goal with
          | H : Rleb _ _ = true |- _ => apply Rleb_true in H
          | H : Rleb _ _ = false |- _ => apply Rleb_false in H
          | H : Rltb _ _ = true |- _ => apply Rltb_true in H
          | H : Rltb _ _ = false |- _ => apply Rltb_false in H
          end; lra.
Qed.

(** *** [linspace] *)

Lemma linspace_unfold start stop div :
  linspace start stop (S (S div)) =
  map (fun i => INR i * ((stop - start) / INR (S div)) + start)
      (seq 0 (S div)) ++ [stop].
Proof. reflexivity. Qed.

Lemma length_linspace start stop num :
  List.length (linspace start stop num) = num.
Proof.
  destruct num as [|[|div]]; try reflexivity.
  rewrite linspace_unfold, length_app, length_map, length_seq.
  simpl; lia.
Qed.

Lemma nth_linspace_lt start stop div i :
  (i < S div)%nat ->
  nth i (linspace start stop (S (S div))) 0 =
  INR i * ((stop - start) / INR (S div)) + start.
Proof.
  intros Hi. rewrite linspace_unfold.
  rewrite app_nth1 by (rewrite length_map, length_seq; lia).
  set (f := fun i : nat => INR i * ((stop - start) / INR (S div)) + start).
  rewrite (nth_indep _ 0 (f 0%nat))
    by (rewrite length_map, length_seq; lia).
  rewrite (map_nth f), seq_nth by lia. reflexivity.
Qed.

Lemma nth_linspace_last start stop div :
  nth (S div) (linspace start stop (S (S div))) 0 = stop.
Proof.
  rewrite linspace_unfold.
  rewrite app_nth2 by (rewrite length_map, length_seq; lia).
  rewrite length_map, length_seq, Nat.sub_diag. reflexivity.
Qed.

(** Every element but the last is [start + i * step]; so is the last, in
    exact arithmetic. *)
Lemma nth_linspace start stop div i :
  (i <= S div)%nat ->
  nth i (linspace start stop (S (S div))) 0 =
  INR i * ((stop - start) / INR (S div)) + start.
Proof.
  intros Hi. destruct (Nat.eq_dec i (S div)) as [->|Hne].
  - rewrite nth_linspace_last.
    assert (INR (S div) <> 0) by (apply not_0_INR; lia).
    field; assumption.
  - apply nth_linspace_lt; lia.
Qed.

Lemma hd_linspace start stop div :
  nth 0 (linspace start stop (S (S div))) 0 = start.
Proof. rewrite nth_linspace_lt by lia. simpl INR. lra. Qed.

(** Consecutive elements are one step apart. *)
Lemma linspace_equal_width start stop div i :
  (i < S div)%nat ->
  nth (S i) (linspace start stop (S (S div))) 0
  - nth i (linspace start stop (S (S div))) 0
  = (stop - start) / INR (S div).
Proof.
  intros Hi. rewrite !nth_linspace by lia. rewrite S_INR.
  assert (INR (S div) <> 0) by (apply not_0_INR; lia).
  field; assumption.
Qed.

Lemma monotonic_nth : forall edges,
  (forall i, (S i < List.length edges)%nat ->
             nth i edges 0 <= nth (S i) edges 0) ->
  monotonic edges = true.
Proof.
  induction edges as [|lo [|hi tl] IH]; intros H; try reflexivity.
  apply monotonic_cons; split.
  - apply (H 0%nat); simpl; lia.
  - apply IH; intros i Hi. apply (H (S i)); simpl in *; lia.
Qed.

Lemma monotonic_linspace start stop num :
  start <= stop -> monotonic (linspace start stop num) = true.
Proof.
  intros Hle. destruct num as [|[|div]]; try reflexivity.
  apply monotonic_nth; intros i Hi.
  rewrite length_linspace in Hi.
  pose proof (linspace_equal_width start stop div i ltac:(lia)) as Hw.
  assert (0 < INR (S div)) by (apply lt_0_INR; lia).
  assert (0 <= (stop - start) / INR (S div)).
  { apply Rmult_le_pos; [lra|]. left; apply Rinv_0_lt_compat; assumption. }
  lra.
Qed.

Lemma last_nth {A} (l : list A) (d : A) :
  last l d = nth (List.length l - 1) l d.
Proof.
  induction l as [|x [|y l] IH]; try reflexivity.
  change (last (x :: y :: l) d) with (last (y :: l) d).
  rewrite IH. simpl. rewrite Nat.sub_0_r. reflexivity.
Qed.

(** [histogram_counts_total] for edges given as a whole. *)
Lemma histogram_counts_sum a edges :
  (2 <= List.length edges)%nat ->
  monotonic edges = true ->
  list_sum (histogram_counts a edges) =
  count_if (in_range (nth 0 edges 0)
                     (nth (List.length edges - 1) edges 0)) a.
Proof.
  destruct edges as [|lo [|hi tl]]; simpl List.length; try lia.
  intros _ Hm. rewrite histogram_counts_total by (auto; discriminate).
  rewrite (last_default hi tl lo 0), last_nth.
  cbn [List.length Nat.sub]. rewrite !Nat.sub_0_r. reflexivity.
Qed.

End NumpyFacts.

(** ** The embedded library functions on small inputs *)

Module LibraryExamples.

Import Numpy NumpyFacts.

(** [np.histogram([0.1, 0.2, 0.3, nan, -0.2, -0.3], [-0.2, 0, 0.2])] counts
    -0.2 in the first bin, 0.1 and the right edge 0.2 in the last, and
    leaves 0.3, -0.3 and nan out. *)
Example histogram_counts_example :
  histogram_counts
    [Some 0.1; Some 0.2; Some 0.3; None; Some (-0.2); Some (-0.3)]
    [-0.2; 0; 0.2] = [1; 2]%nat.
Proof.
  cbn [histogram_counts is_nil]. unfold count_if.
  cbn [filter in_bin]. Rcompare. reflexivity.
Qed.

Example linspace_example : linspace 0 1 3 = [0 * ((1 - 0) / 2) + 0;
                                             1 * ((1 - 0) / 2) + 0; 1].
Proof. reflexivity. Qed.

Example meshgrid_example :
  meshgrid [1; 2; 3] [10; 20] =
  (mk_ndarray [2; 3]%nat [1; 2; 3; 1; 2; 3],
   mk_ndarray [2; 3]%nat [10; 10; 10; 20; 20; 20]).
Proof. reflexivity. Qed.

Example splitext_examples :
  OsPath.splitext "a.fits" = ("a", ".fits") /\
  OsPath.splitext ".bashrc" = (".bashrc", "") /\
  OsPath.splitext "dir.d/file" = ("dir.d/file", "") /\
  OsPath.splitext "a/b.c.fits" = ("a/b.c", ".fits") /\
  OsPath.splitext "..x" = ("..x", "") /\
  OsPath.splitext "a..x" = ("a.", ".x").
Proof. repeat split; reflexivity. Qed.

Example basename_examples :
  OsPath.basename "a/b/c.fits" = "c.fits" /\
  OsPath.basename "c.fits" = "c.fits" /\
  OsPath.basename "a/" = "".
Proof. repeat split; reflexivity. Qed.

Example join_examples :
  OsPath.join "dir" "f" = "dir/f" /\
  OsPath.join "dir/" "f" = "dir/f" /\
  OsPath.join "dir" "/abs" = "/abs" /\
  OsPath.join "" "f" = "f".
Proof. repeat split; reflexivity. Qed.

End LibraryExamples.

(** ** Facts about ctapipe's [linalg] *)

Module LinalgFacts.

Import Linalg.

Lemma length_sqr v : length v * length v = fst v * fst v + snd v * snd v.
Proof. unfold length; apply sqrt_sqrt; nra. Qed.

(** Only the zero vector has length zero. *)
Lemma length_zero v : length v = 0 <-> v = (0, 0).
Proof.
  split.
  - intros H. pose proof (length_sqr v) as Hs. rewrite H in Hs.
    destruct v as [a b]; simpl in *.
    assert (a = 0) by nra. assert (b = 0) by nra. subst; reflexivity.
  - intros ->. unfold length; simpl.
    replace (0 * 0 + 0 * 0) with 0 by ring. apply sqrt_0.
Qed.

Lemma length_opp a b : length (- a, - b) = length (a, b).
Proof. unfold length; simpl. f_equal; ring. Qed.

Lemma normalise_nonzero v :
  v <> (0, 0) ->
  normalise v = Some (fst v / length v, snd v / length v).
Proof.
  intros Hv. unfold normalise.
  destruct (Req_dec_T (length v) 0) as [E|E]; [|reflexivity].
  apply length_zero in E; contradiction.
Qed.

Lemma normalise_zero : normalise (0, 0) = None.
Proof.
  unfold normalise.
  destruct (Req_dec_T (length (0, 0)) 0) as [E|E]; [reflexivity|].
  exfalso; apply E; apply length_zero; reflexivity.
Qed.

(** A normalised vector has length one. *)
Lemma normalise_unit v t :
  normalise v = Some t -> fst t * fst t + snd t * snd t = 1.
Proof.
  unfold normalise. destruct (Req_dec_T (length v) 0) as [E|E];
    [discriminate|].
  intros H; inversion H; subst; clear H. simpl.
  pose proof (length_sqr v) as Hs.
  replace (fst v / length v * (fst v / length v)
           + snd v / length v * (snd v / length v))
    with ((fst v * fst v + snd v * snd v) / (length v * length v))
    by (field; assumption).
  rewrite <- Hs. field; assumption.
Qed.

(** Normalising the opposite vector gives the opposite unit vector. *)
Lemma normalise_opp a b t :
  normalise (a, b) = Some t ->
  normalise (- a, - b) = Some (- fst t, - snd t).
Proof.
  unfold normalise. rewrite length_opp.
  destruct (Req_dec_T (length (a, b)) 0) as [E|E]; [discriminate|].
  intros H; inversion H; subst; clear H. simpl.
  f_equal; f_equal; field; assumption.
Qed.

Lemma normalise_axis_down : normalise (0, -1) = Some (0, -1).
Proof.
  assert (L : length (0, -1) = 1).
  { unfold length; simpl. replace (0 * 0 + -1 * -1) with 1 by ring.
    apply sqrt_1. }
  unfold normalise. rewrite L.
  destruct (Req_dec_T 1 0) as [E|E]; [lra|].
  simpl. f_equal; f_equal; field.
Qed.

Lemma normalise_axis_up : normalise (0, 1) = Some (0, 1).
Proof.
  assert (L : length (0, 1) = 1).
  { unfold length; simpl. replace (0 * 0 + 1 * 1) with 1 by ring.
    apply sqrt_1. }
  unfold normalise. rewrite L.
  destruct (Req_dec_T 1 0) as [E|E]; [lra|].
  simpl. f_equal; f_equal; field.
Qed.

End LinalgFacts.

(** ** The perpendicular hit distribution *)

Module HitDistribution.

Import Numpy Mpl Trace PlotPerpendicularHitDistribution Outcomes.
Import NumpyFacts LinalgFacts.

Lemma length_concat_const {A B} (x : list A) (f : B -> list A) n :
  forall y : list B,
  (forall b, List.length (f b) = n) ->
  List.length (List.concat (map f y)) = (List.length y * n)%nat.
Proof.
  induction y as [|b y IH]; intros Hf; [reflexivity|].
  simpl. rewrite length_app, Hf, IH by assumption. reflexivity.
Qed.

Lemma length_grid_x : List.length grid_x = 1600%nat.
Proof.
  unfold grid_x, pixel_grid, meshgrid, flatten; cbn [fst data].
  rewrite (length_concat_const (@nil R) _ 40).
  - rewrite length_linspace. reflexivity.
  - intros _. apply length_linspace.
Qed.

Lemma length_grid_y : List.length grid_y = 1600%nat.
Proof.
  unfold grid_y, pixel_grid, meshgrid, flatten; cbn [snd data].
  rewrite (length_concat_const (@nil R) _ 40).
  - rewrite length_linspace. reflexivity.
  - intros b. rewrite length_map. apply length_linspace.
Qed.

Lemma length_dp h x y :
  List.length (dp h x y) = Nat.min (List.length x) (List.length y).
Proof.
  unfold dp, D. destruct (p1 h) as [p1_x p1_y].
  rewrite length_map, length_combine, !length_map. reflexivity.
Qed.

Lemma monotonic_hit_bins : monotonic hit_bins = true.
Proof. apply monotonic_linspace; unfold size_m; lra. Qed.

Section WithCollaborators.

Context {ext : Collaborators}.

Lemma hit_distribution_step_ok hillas xx yy axis k signal w h :
  getitem hillas k = Ok h ->
  hit_distribution_step hillas xx yy axis (k, signal) w =
  (Ok (add_artist
         (HistStep k (histogram_counts (dp h (flatten xx) (flatten yy))
                                       hit_bins) hit_bins) axis), w).
Proof.
  intros Hk. unfold hit_distribution_step, bind, lift.
  rewrite Hk. unfold hist, histogram, ravel.
  fold hit_bins. rewrite monotonic_hit_bins. reflexivity.
Qed.

(** The function on an image whose fit succeeded. *)
Lemma plot_perpendicular_hit_distribution_ok axis image title w h rest :
  hillas_parameters_1 grid_x grid_y (flatten image) = Ok (h, rest) ->
  plot_perpendicular_hit_distribution axis image title w =
  (Ok (hit_distribution_axes h title axis), w).
Proof.
  intros Hfit.
  unfold plot_perpendicular_hit_distribution, hit_distribution_axes.
  unfold grid_x, grid_y in *. destruct pixel_grid as [xx yy].
  cbn [fst snd] in *. unfold deepcopy, bind at 1, lift at 1.
  rewrite Hfit. cbn [for_each fst]. unfold bind, lift, ret.
  rewrite (hit_distribution_step_ok _ _ _ _ _ _ _ h) by reflexivity.
  rewrite (hit_distribution_step_ok _ _ _ _ _ _ _ h) by reflexivity.
  reflexivity.
Qed.

(** The function on an image whose fit failed. *)
Lemma plot_perpendicular_hit_distribution_raise axis image title w e :
  hillas_parameters_1 grid_x grid_y (flatten image) = Raise e ->
  plot_perpendicular_hit_distribution axis image title w = (Raise e, w).
Proof.
  intros Hfit.
  unfold plot_perpendicular_hit_distribution, hit_distribution_axes.
  unfold grid_x, grid_y in *. destruct pixel_grid as [xx yy].
  cbn [fst snd] in *. unfold deepcopy, bind at 1, lift at 1.
  rewrite Hfit. reflexivity.
Qed.

Lemma histograms_add_hist label values bins ax :
  histograms (add_artist (HistStep label values bins) ax) =
  histograms ax ++ [(label, values, bins)].
Proof.
  unfold histograms, add_artist; cbn [artists].
  rewrite flat_map_app. reflexivity.
Qed.

Lemma histograms_decorated title xl yl lo hi ax :
  histograms
    (set_title title
       (add_artist Legend
          (set_ylabel yl (set_xlabel xl (set_xlim lo hi ax))))) =
  histograms ax.
Proof.
  unfold histograms, set_title, add_artist, set_ylabel, set_xlabel,
    set_xlim; cbn [artists].
  rewrite flat_map_app. simpl. apply app_nil_r.
Qed.

Lemma hit_bins_binned dps :
  binned_as_specified dps (histogram_counts dps hit_bins) hit_bins.
Proof.
  assert (L : List.length hit_bins = 31%nat)
    by apply length_linspace.
  assert (H0 : nth 0 hit_bins 0 = -0.2).
  { unfold hit_bins. rewrite hd_linspace. unfold size_m. lra. }
  assert (H30 : nth 30 hit_bins 0 = 0.2).
  { unfold hit_bins. rewrite nth_linspace_last. reflexivity. }
  unfold binned_as_specified.
  refine (conj _ (conj _ (conj _ (conj _ (conj _ (conj _ _)))))).
  - rewrite length_histogram_counts, L. reflexivity.
  - exact L.
  - exact H0.
  - exact H30.
  - intros i Hi. unfold hit_bins.
    rewrite linspace_equal_width by lia.
    replace (INR 30) with 30 by (simpl; lra). unfold size_m. lra.
  - rewrite histogram_counts_sum by (rewrite ?L; auto using monotonic_hit_bins; lia).
    rewrite L. change (31 - 1)%nat with 30%nat. rewrite H0, H30.
    reflexivity.
  - intros i Hi. rewrite nth_histogram_counts by (rewrite L; lia).
    rewrite L. reflexivity.
Qed.

(** C1. On every image whose fit succeeds, each of the two histograms
    of the perpendicular hit distribution has exactly 30 bins of equal
    width, from -0.2 to 0.2; its counts add up to the number of pixels
    (out of the 1600 of the grid) whose transverse distance [dp] lies in
    [-0.2, 0.2], and each bin counts only the pixels between its own two
    edges, so that a pixel outside the range is in no bin. *)
Theorem hit_histogram_has_thirty_bins axis image title w h rest :
  hillas_parameters_1 grid_x grid_y (flatten image) = Ok (h, rest) ->
  exists axis' values_ref values_cleaned bins,
    plot_perpendicular_hit_distribution axis image title w
    = (Ok axis', w) /\
    histograms axis' =
    histograms axis ++ [("ref.", values_ref, bins);
                        ("cleaned", values_cleaned, bins)] /\
    List.length (dp h grid_x grid_y) = 1600%nat /\
    binned_as_specified (dp h grid_x grid_y) values_ref bins /\
    binned_as_specified (dp h grid_x grid_y) values_cleaned bins.
Proof.
  intros Hfit.
  pose proof (plot_perpendicular_hit_distribution_ok
                axis image title w h rest Hfit) as Hrun.
  unfold hit_distribution_axes in Hrun.
  eexists; exists (histogram_counts (dp h grid_x grid_y) hit_bins),
    (histogram_counts (dp h grid_x grid_y) hit_bins), hit_bins.
  split; [exact Hrun|]. split; [|split; [|split]].
  - rewrite histograms_decorated, !histograms_add_hist, <- app_assoc.
    reflexivity.
  - rewrite length_dp, length_grid_x, length_grid_y. reflexivity.
  - apply hit_bins_binned.
  - apply hit_bins_binned.
Qed.

End WithCollaborators.

Lemma hit_histogram_has_thirty_bins_witness :
  @hillas_parameters_1 Samples.collaborators grid_x grid_y
    (flatten Samples.image_2d) = Ok (Samples.upright, []) /\
  exists axis' values_ref values_cleaned bins,
    @plot_perpendicular_hit_distribution Samples.collaborators
      (new_axes 122) Samples.image_2d "Perpendicular hit distribution" []
    = (Ok axis', []) /\
    histograms axis' =
    histograms (new_axes 122) ++ [("ref.", values_ref, bins);
                                  ("cleaned", values_cleaned, bins)] /\
    List.length (dp Samples.upright grid_x grid_y) = 1600%nat /\
    binned_as_specified (dp Samples.upright grid_x grid_y)
                        values_ref bins /\
    binned_as_specified (dp Samples.upright grid_x grid_y)
                        values_cleaned bins.
Proof.
  split; [reflexivity|].
  apply (@hit_histogram_has_thirty_bins Samples.collaborators
           (new_axes 122) Samples.image_2d
           "Perpendicular hit distribution" [] Samples.upright []).
  reflexivity.
Defined.

(** *** The geometry of one fit *)

Lemma cos_plus_half_pi x : cos (x + PI / 2) = - sin x.
Proof. rewrite cos_plus, cos_PI2, sin_PI2. ring. Qed.

Lemma sin_plus_half_pi x : sin (x + PI / 2) = cos x.
Proof. rewrite sin_plus, cos_PI2, sin_PI2. ring. Qed.

Lemma p2_upright : p2 Samples.upright = (0, 1).
Proof.
  unfold p2, Samples.upright; cbn [Hillas.cen_x Hillas.cen_y Hillas.length
                                   Hillas.psi].
  rewrite cos_plus_half_pi, sin_plus_half_pi, sin_0, cos_0.
  f_equal; ring.
Qed.

Lemma T_upright : T Samples.upright = Some (0, -1).
Proof.
  unfold T. rewrite p2_upright.
  unfold p1, Samples.upright; cbn [Hillas.cen_x Hillas.cen_y].
  replace (0 - 0) with 0 by ring. replace (0 - 1) with (-1) by ring.
  apply normalise_axis_down.
Qed.

(** Against C2 as stated: for the upright ellipse at the origin, whose
    [p2] is (0, 1), [T] is (0, -1), while the unit vector from [p1] to
    [p2] is (0, 1). *)
Lemma basis_vector_is_not_from_p1_to_p2 :
  p1 Samples.upright <> p2 Samples.upright /\
  T Samples.upright <>
  Linalg.normalise (fst (p2 Samples.upright) - fst (p1 Samples.upright),
                    snd (p2 Samples.upright) - snd (p1 Samples.upright)).
Proof.
  rewrite T_upright, p2_upright.
  unfold p1, Samples.upright; cbn [Hillas.cen_x Hillas.cen_y fst snd].
  split.
  - intros E; inversion E; lra.
  - replace (0 - 0) with 0 by ring. replace (1 - 0) with 1 by ring.
    rewrite normalise_axis_up. intros E; inversion E; lra.
Qed.

(** C2, amended. Whenever the fit yields [p1] distinct from [p2], the
    basis vector [T] is the unit vector pointing from the axis endpoint
    [p2] to the centroid [p1], [T = normalise(p1 - p2)]: the opposite of
    the unit vector from [p1] to [p2]. *)
Theorem basis_vector_points_from_p2_to_p1 h :
  p1 h <> p2 h ->
  exists t,
    T h = Some t /\
    T h = Linalg.normalise (fst (p1 h) - fst (p2 h),
                            snd (p1 h) - snd (p2 h)) /\
    fst t * fst t + snd t * snd t = 1 /\
    Linalg.normalise (fst (p2 h) - fst (p1 h), snd (p2 h) - snd (p1 h))
    = Some (- fst t, - snd t).
Proof.
  intros Hne.
  assert (Hdef : T h = Linalg.normalise (fst (p1 h) - fst (p2 h),
                                         snd (p1 h) - snd (p2 h))).
  { unfold T. destruct (p1 h) as [p1_x p1_y], (p2 h) as [p2_x p2_y].
    reflexivity. }
  assert (Hv : (fst (p1 h) - fst (p2 h), snd (p1 h) - snd (p2 h))
               <> (0, 0)).
  { intros E. apply Hne.
    destruct (p1 h) as [a b], (p2 h) as [c d]; cbn [fst snd] in E.
    injection E as E1 E2. f_equal; lra. }
  pose proof (normalise_nonzero _ Hv) as Hn.
  eexists; split; [rewrite Hdef; exact Hn|].
  split; [exact Hdef|]. split.
  - exact (normalise_unit _ _ Hn).
  - pose proof (normalise_opp _ _ _ Hn) as Ho.
    replace (fst (p2 h) - fst (p1 h)) with (- (fst (p1 h) - fst (p2 h)))
      by ring.
    replace (snd (p2 h) - snd (p1 h)) with (- (snd (p1 h) - snd (p2 h)))
      by ring.
    exact Ho.
Qed.

Lemma basis_vector_points_from_p2_to_p1_witness :
  p1 Samples.upright <> p2 Samples.upright /\
  exists t,
    T Samples.upright = Some t /\
    T Samples.upright =
    Linalg.normalise (fst (p1 Samples.upright) - fst (p2 Samples.upright),
                      snd (p1 Samples.upright) - snd (p2 Samples.upright)) /\
    fst t * fst t + snd t * snd t = 1 /\
    Linalg.normalise
      (fst (p2 Samples.upright) - fst (p1 Samples.upright),
       snd (p2 Samples.upright) - snd (p1 Samples.upright))
    = Some (- fst t, - snd t).
Proof.
  assert (Hne : p1 Samples.upright <> p2 Samples.upright).
  { rewrite p2_upright. unfold p1, Samples.upright; simpl.
    intros E; inversion E; lra. }
  split; [exact Hne|].
  exact (basis_vector_points_from_p2_to_p1 Samples.upright Hne).
Defined.

(** C3. The axis endpoint is the centroid moved by the fitted length in
    the direction [psi + pi/2]: [p2 = p1 + length * (cos(psi + pi/2),
    sin(psi + pi/2))], which is [p1 + length * (-sin psi, cos psi)] and,
    for a length other than zero, never [p1 + length * (cos psi,
    sin psi)]. *)
Theorem axis_endpoint_is_offset_along_psi_plus_half_pi h :
  p2 h = (fst (p1 h) + Hillas.length h * cos (Hillas.psi h + PI / 2),
          snd (p1 h) + Hillas.length h * sin (Hillas.psi h + PI / 2)) /\
  p2 h = (Hillas.cen_x h - Hillas.length h * sin (Hillas.psi h),
          Hillas.cen_y h + Hillas.length h * cos (Hillas.psi h)) /\
  (Hillas.length h <> 0 ->
   p2 h <> (fst (p1 h) + Hillas.length h * cos (Hillas.psi h),
            snd (p1 h) + Hillas.length h * sin (Hillas.psi h))).
Proof.
  split; [reflexivity|]. split.
  - unfold p2. rewrite cos_plus_half_pi, sin_plus_half_pi.
    f_equal; ring.
  - intros HL E. unfold p2, p1 in E; cbn [fst snd] in E.
    rewrite cos_plus_half_pi, sin_plus_half_pi in E.
    inversion E as [[E1 E2]].
    assert (Hc : cos (Hillas.psi h) = - sin (Hillas.psi h)).
    { apply Rmult_eq_reg_l with (r := Hillas.length h); [lra|assumption]. }
    assert (Hs : cos (Hillas.psi h) = sin (Hillas.psi h)).
    { apply Rmult_eq_reg_l with (r := Hillas.length h); [lra|assumption]. }
    pose proof (sin2_cos2 (Hillas.psi h)) as H1. unfold Rsqr in H1.
    nra.
Qed.

Lemma axis_endpoint_is_offset_along_psi_plus_half_pi_witness :
  Hillas.length Samples.upright <> 0 /\
  p2 Samples.upright = (0, 1) /\
  p2 Samples.upright <>
  (fst (p1 Samples.upright)
   + Hillas.length Samples.upright * cos (Hillas.psi Samples.upright),
   snd (p1 Samples.upright)
   + Hillas.length Samples.upright * sin (Hillas.psi Samples.upright)).
Proof.
  assert (HL : Hillas.length Samples.upright <> 0) by (simpl; lra).
  split; [exact HL|]. split; [exact p2_upright|].
  exact (proj2 (proj2 (axis_endpoint_is_offset_along_psi_plus_half_pi
                         Samples.upright)) HL).
Defined.

(** *** The projection of the pixels *)

Lemma combine_map {A B C E} (f : A -> C) (g : B -> E) :
  forall (x : list A) (y : list B),
  combine (map f x) (map g y) =
  map (fun xy => (f (fst xy), g (snd xy))) (combine x y).
Proof.
  induction x as [|a x IH]; intros [|b y]; try reflexivity.
  simpl. rewrite IH. reflexivity.
Qed.

Lemma dp_pointwise h x y :
  dp h x y =
  map (fun xy => cross (T h) (Hillas.cen_x h - fst xy,
                              Hillas.cen_y h - snd xy)) (combine x y).
Proof.
  unfold dp, D, p1. rewrite combine_map, map_map. reflexivity.
Qed.

Lemma dl_pointwise h x y :
  dl h x y =
  map (fun xy => dot (T h) (Hillas.cen_x h - fst xy,
                            Hillas.cen_y h - snd xy)) (combine x y).
Proof.
  unfold dl, D, p1. rewrite combine_map, map_map. reflexivity.
Qed.

(** C4. For every pixel position [(x, y)] of the cloud the displacement
    is [D = p1 - (x, y)], the longitudinal component is [dl = D.T] and
    the transverse one is [dp = D_x * T_y - D_y * T_x]; the histogram
    that is drawn is the histogram of the [dp], and two fits with the same
    [dp] give the same drawing whatever their [dl]. *)
Theorem transverse_component_is_what_is_binned
        hillas xx yy axis k signal w h :
  getitem hillas k = Ok h ->
  (forall t0 t1, T h = Some (t0, t1) ->
     dp h (flatten xx) (flatten yy) =
     map (fun xy => Some ((Hillas.cen_x h - fst xy) * t1
                          - (Hillas.cen_y h - snd xy) * t0))
         (combine (flatten xx) (flatten yy)) /\
     dl h (flatten xx) (flatten yy) =
     map (fun xy => Some ((Hillas.cen_x h - fst xy) * t0
                          + (Hillas.cen_y h - snd xy) * t1))
         (combine (flatten xx) (flatten yy))) /\
  hit_distribution_step hillas xx yy axis (k, signal) w =
  (Ok (add_artist
         (HistStep k (histogram_counts (dp h (flatten xx) (flatten yy))
                                       hit_bins) hit_bins) axis), w) /\
  (forall hillas' h',
     getitem hillas' k = Ok h' ->
     dp h' (flatten xx) (flatten yy) = dp h (flatten xx) (flatten yy) ->
     hit_distribution_step hillas' xx yy axis (k, signal) w =
     hit_distribution_step hillas xx yy axis (k, signal) w).
Proof.
  intros Hk. split; [|split].
  - intros t0 t1 HT. rewrite dp_pointwise, dl_pointwise, HT.
    split; reflexivity.
  - apply hit_distribution_step_ok; assumption.
  - intros hillas' h' Hk' Hdp.
    rewrite (hit_distribution_step_ok hillas' _ _ _ _ _ _ h' Hk').
    rewrite (hit_distribution_step_ok hillas _ _ _ _ _ _ h Hk).
    rewrite Hdp. reflexivity.
Qed.

Lemma T_upright_moved : T upright_moved = Some (0, -1).
Proof.
  unfold T, p2, p1, upright_moved;
    cbn [Hillas.cen_x Hillas.cen_y Hillas.length Hillas.psi].
  rewrite cos_plus_half_pi, sin_plus_half_pi, sin_0, cos_0.
  replace (0 - (0 + 1 * - 0)) with 0 by ring.
  replace (1 - (1 + 1 * 1)) with (-1) by ring.
  apply normalise_axis_down.
Qed.

Lemma dp_upright_moved x y :
  dp upright_moved x y = dp Samples.upright x y.
Proof.
  rewrite !dp_pointwise, T_upright, T_upright_moved.
  apply map_ext; intros [a b]. unfold cross; simpl. f_equal; ring.
Qed.

Lemma dl_upright_moved :
  dl upright_moved [0] [0] <> dl Samples.upright [0] [0].
Proof.
  rewrite !dl_pointwise, T_upright, T_upright_moved. simpl.
  intros E; inversion E; lra.
Qed.

Lemma transverse_component_is_what_is_binned_witness :
  getitem [("ref.", Samples.upright)] "ref." = Ok Samples.upright /\
  dl upright_moved [0] [0] <> dl Samples.upright [0] [0] /\
  hit_distribution_step [("ref.", upright_moved)]
    (fst pixel_grid) (snd pixel_grid) (new_axes 122)
    ("ref.", Samples.image_2d) [] =
  hit_distribution_step [("ref.", Samples.upright)]
    (fst pixel_grid) (snd pixel_grid) (new_axes 122)
    ("ref.", Samples.image_2d) [].
Proof.
  split; [reflexivity|]. split; [exact dl_upright_moved|].
  apply (proj2 (proj2 (transverse_component_is_what_is_binned
                         [("ref.", Samples.upright)]
                         (fst pixel_grid) (snd pixel_grid) (new_axes 122)
                         "ref." Samples.image_2d [] Samples.upright
                         eq_refl))
           [("ref.", upright_moved)] upright_moved eq_refl).
  apply dp_upright_moved.
Defined.

(** *** The two distributions *)

Section TwoDistributions.

Context {ext : Collaborators}.

(** C5. The function takes one image; the "ref." and the "cleaned"
    distribution are both computed from a copy of it, so whenever the
    function returns, the two histograms it has drawn have the same
    counts over the same bins; and it returns unless the fit of that one
    image fails. *)
Theorem ref_and_cleaned_distributions_are_identical
        axis image_array title w :
  deepcopy image_array = image_array /\
  match plot_perpendicular_hit_distribution axis image_array title w with
  | (Ok axis', w') =>
      w' = w /\
      exists values bins,
        histograms axis' =
        histograms axis ++ [("ref.", values, bins);
                            ("cleaned", values, bins)]
  | (Raise e, w') =>
      w' = w /\
      hillas_parameters_1 grid_x grid_y (flatten image_array) = Raise e
  end.
Proof.
  split; [reflexivity|].
  destruct (hillas_parameters_1 grid_x grid_y (flatten image_array))
    as [[h rest]|e] eqn:Hfit.
  - rewrite (plot_perpendicular_hit_distribution_ok _ _ _ _ _ _ Hfit).
    unfold hit_distribution_axes. split; [reflexivity|].
    exists (histogram_counts (dp h grid_x grid_y) hit_bins), hit_bins.
    rewrite histograms_decorated, !histograms_add_hist, <- app_assoc.
    reflexivity.
  - rewrite (plot_perpendicular_hit_distribution_raise _ _ _ _ _ Hfit).
    split; reflexivity.
Qed.

End TwoDistributions.

End HitDistribution.

(** ** Running the monad *)

Module PyFacts.

Lemma bind_ok {S A B} (m : M S A) (k : A -> M S B) s a s' :
  m s = (Ok a, s') -> bind m k s = k a s'.
Proof. intros H; unfold bind; rewrite H; reflexivity. Qed.

Lemma bind_raise {S A B} (m : M S A) (k : A -> M S B) s e s' :
  m s = (Raise e, s') -> bind m k s = (Raise e, s').
Proof. intros H; unfold bind; rewrite H; reflexivity. Qed.

Lemma for_each_cons {S A X} (x : X) xs (body : A -> X -> M S A) acc :
  for_each (x :: xs) body acc = bind (body acc x) (for_each xs body).
Proof. reflexivity. Qed.

End PyFacts.

(** ** The benchmark plots container *)

Module Widget.

Import Numpy Mpl Trace BenchmarkPlotsContainer Outcomes.

Import PyFacts.

Ltac run :=
  unfold clear_figure, draw_image_at, emit, modify_fig, modify_self,
    read_perf_counter, try_except, bind, get, modify, lift, ret, raise.

(** Bring the figure of the store into normal form. *)
Ltac norm1 :=
  match goal with
  | |- context [set_fig ?f (set_fig ?g ?c)] =>
      change (set_fig f (set_fig g c)) with (set_fig f c)
  | |- context [fig (set_fig ?f ?c)] =>
      change (fig (set_fig f c)) with f
  | _ => progress unfold update_axes, add_subplot, canvas_draw, clf
  | _ => progress cbn [self trace ticks axes draws app map find position
                       new_axes Nat.eqb]
  end.

Ltac norm := repeat norm1.

(** Run the first action of a sequence; [tac] rewrites with what is known
    of the collaborators. *)
Ltac step tac :=
  erewrite bind_ok; [ | run; tac; reflexivity ];
  cbv beta iota; cbn [self trace ticks].

Section WithCollaborators.

Context {ext : Collaborators}.

(** C10. With no file selected the update does nothing: it returns
    without raising and leaves the whole store as it was, that is, the
    figure and the other attributes of the container, the record of what
    was printed and of the calls to the loader, the cleaning algorithms
    and the assessment, and the clock. *)
Theorem update_without_selection_does_nothing (w : World) :
  current_file_path (self w) = None ->
  update_plots w = (Ok tt, w).
Proof.
  intros Hnone. unfold update_plots. run. rewrite Hnone. reflexivity.
Qed.

(** [_draw_image] reads two attributes of the container only. *)
Lemma _draw_image_set_fig f c axis image title :
  _draw_image (set_fig f c) axis image title =
  _draw_image c axis image title.
Proof. reflexivity. Qed.

(** The update on a file that holds an image that is not 2D. *)
Lemma update_plots_not_2d w path dict meta input_img reference_img :
  current_file_path (self w) = Some path ->
  load_benchmark_images path = Ok (dict, meta) ->
  getitem dict "input_image" = Ok input_img ->
  getitem dict "reference_image" = Ok reference_img ->
  ndim input_img <> 2%nat \/ ndim reference_img <> 2%nat ->
  update_plots w =
  (Raise (Exception not_2d_message),
   mk_World (self w)
            (trace w ++ [Call "images.load_benchmark_images" path])
            (ticks w)).
Proof.
  intros Hpath Hload Hin Href Hnd. unfold update_plots. run.
  rewrite Hpath. cbn [self trace ticks]. rewrite Hload, Hin, Href.
  destruct (ndim input_img =? 2)%nat eqn:E1; cbn [negb].
  - destruct (ndim reference_img =? 2)%nat eqn:E2; cbn [negb].
    + apply Nat.eqb_eq in E1, E2. destruct Hnd; contradiction.
    + reflexivity.
  - reflexivity.
Qed.

Lemma _draw_image_position c axis image title axis' :
  _draw_image c axis image title = Ok axis' ->
  position axis' = position axis.
Proof.
  unfold _draw_image, pcolor.
  destruct (shape_at image 0), (shape_at image 1); try discriminate.
  destruct (amin image), (amax image); try discriminate.
  destruct (ndim image =? 2)%nat; try discriminate.
  destruct (show_color_bar c); intros H; inversion H; reflexivity.
Qed.

Lemma fig_set_fig f c : fig (set_fig f c) = f.
Proof. reflexivity. Qed.

Lemma set_fig_set_fig f g c : set_fig f (set_fig g c) = set_fig f c.
Proof. reflexivity. Qed.

(** One [try: ... except AssessError: ...] block. *)
Lemma assess_block tag name (r : result (list R * list string)) w :
  returned_or_assess_error r ->
  try_except
    (emit (Call "assess.assess_image_cleaning" name) ;;;
     scores <- lift r ;;
     emit (Print [VStr (tag ++ ":"); VFloats (fst scores);
                  VStrs (snd scores)]))
    is_AssessError
    (emit (Print [VStr (tag ++ ": "); VClass "AssessError"])) w =
  (Ok tt,
   mk_World (self w)
            (trace w ++ [Call "assess.assess_image_cleaning" name;
                         report tag r])
            (ticks w)).
Proof.
  intros Hr. run. cbn [self trace ticks].
  destruct r as [scores|e]; cbn [report]; cbn in Hr.
  - rewrite <- app_assoc. reflexivity.
  - rewrite Hr. cbn [self trace ticks]. rewrite <- app_assoc.
    reflexivity.
Qed.

Lemma draw_image_at_ok w pos image title axis axis' :
  find (fun a => (position a =? pos)%nat) (axes (fig (self w)))
  = Some axis ->
  _draw_image (self w) axis image title = Ok axis' ->
  draw_image_at pos image title w =
  (Ok tt,
   mk_World (set_fig (update_axes axis' (fig (self w))) (self w))
            (trace w) (ticks w)).
Proof.
  intros Hfind Hdraw. run. rewrite Hfind, Hdraw. reflexivity.
Qed.

(** The last part of the update: clear, four subplots, four images,
    draw. *)
Lemma redraw w input_img reference_img tc wt a1 a2 a3 a4 :
  _draw_image (self w) (new_axes 221) input_img "Input" = Ok a1 ->
  _draw_image (self w) (new_axes 222) reference_img "Reference" = Ok a2 ->
  _draw_image (self w) (new_axes 223) tc "Tailcut" = Ok a3 ->
  _draw_image (self w) (new_axes 224) wt "Wavelets" = Ok a4 ->
  (clear_figure ;;;
   modify_fig (add_subplot 221) ;;;
   modify_fig (add_subplot 222) ;;;
   modify_fig (add_subplot 223) ;;;
   modify_fig (add_subplot 224) ;;;
   draw_image_at 221 input_img "Input" ;;;
   draw_image_at 222 reference_img "Reference" ;;;
   draw_image_at 223 tc "Tailcut" ;;;
   draw_image_at 224 wt "Wavelets" ;;;
   modify_fig canvas_draw) w =
  (Ok tt,
   mk_World
     (set_fig (mk_Figure [a1; a2; a3; a4]
                         (S (S (draws (fig (self w)))))) (self w))
     (trace w) (ticks w)).
Proof.
  intros Hd1 Hd2 Hd3 Hd4.
  pose proof (_draw_image_position _ _ _ _ _ Hd1) as P1.
  pose proof (_draw_image_position _ _ _ _ _ Hd2) as P2.
  pose proof (_draw_image_position _ _ _ _ _ Hd3) as P3.
  pose proof (_draw_image_position _ _ _ _ _ Hd4) as P4.
  cbn [position new_axes] in P1, P2, P3, P4.
  unfold clear_figure.
  do 5 (erewrite bind_ok by (run; reflexivity); norm).
  erewrite bind_ok
    by (apply draw_image_at_ok with (axis := new_axes 221);
        [reflexivity | exact Hd1]).
  norm; rewrite ?P1; norm.
  erewrite bind_ok
    by (apply draw_image_at_ok with (axis := new_axes 222);
        [norm; rewrite ?P1; reflexivity | exact Hd2]).
  norm; rewrite ?P1, ?P2; norm.
  erewrite bind_ok
    by (apply draw_image_at_ok with (axis := new_axes 223);
        [norm; rewrite ?P1, ?P2; reflexivity | exact Hd3]).
  norm; rewrite ?P1, ?P2, ?P3; norm.
  erewrite bind_ok
    by (apply draw_image_at_ok with (axis := new_axes 224);
        [norm; rewrite ?P1, ?P2, ?P3; reflexivity | exact Hd4]).
  norm; rewrite ?P1, ?P2, ?P3, ?P4; norm.
  run. norm. reflexivity.
Qed.

(** C8. When the assessment of the tailcut result, of the wavelets
    result, or of both raises an assessment error, each error is caught
    where it was raised and reported on the output, the other assessment
    still runs and prints its scores, and the update goes on as it does
    without errors: the figure is cleared, the four images (input,
    reference, tailcut, wavelets) are drawn that can be drawn, and the
    canvas is drawn again. *)
Theorem assessment_errors_do_not_stop_the_update
        w path dict meta input_img reference_img tc wt a1 a2 a3 a4 :
  current_file_path (self w) = Some path ->
  load_benchmark_images path = Ok (dict, meta) ->
  getitem dict "input_image" = Ok input_img ->
  getitem dict "reference_image" = Ok reference_img ->
  ndim input_img = 2%nat ->
  ndim reference_img = 2%nat ->
  tailcut_clean_image input_img 10 5 = Ok tc ->
  wavelets_clean_image input_img (kill_isolated_pixels (self w)) true
                       (wavelets_options_entry (self w)) = Ok wt ->
  returned_or_assess_error
    (assess_image_cleaning input_img tc reference_img "all") ->
  returned_or_assess_error
    (assess_image_cleaning input_img wt reference_img "all") ->
  _draw_image (self w) (new_axes 221) input_img "Input" = Ok a1 ->
  _draw_image (self w) (new_axes 222) reference_img "Reference" = Ok a2 ->
  _draw_image (self w) (new_axes 223) tc "Tailcut" = Ok a3 ->
  _draw_image (self w) (new_axes 224) wt "Wavelets" = Ok a4 ->
  update_plots w =
  (Ok tt,
   mk_World
     (set_fig (mk_Figure [a1; a2; a3; a4]
                         (S (S (draws (fig (self w)))))) (self w))
     (trace w ++
      trace_of_update w path
        (assess_image_cleaning input_img tc reference_img "all")
        (assess_image_cleaning input_img wt reference_img "all"))
     (S (S (S (S (ticks w)))))).
Proof.
  intros Hpath Hload Hin Href Hn1 Hn2 Htc Hwt Hr1 Hr2 Hd1 Hd2 Hd3 Hd4.
  unfold update_plots.
  rewrite (bind_ok get _ w w w) by reflexivity. rewrite Hpath.
  step idtac. step ltac:(rewrite Hload). step ltac:(rewrite Hin).
  step ltac:(rewrite Href). rewrite Hn1, Hn2. cbn [Nat.eqb negb].
  unfold astype_float64.
  step idtac. step idtac.
  step ltac:(cbn [self trace ticks]; rewrite Htc).
  step idtac. step idtac. step idtac. step idtac.
  step ltac:(cbn [self trace ticks]; rewrite Hwt).
  step idtac. step idtac. step idtac.
  erewrite bind_ok by (apply (assess_block "TC" "tailcut"); exact Hr1).
  erewrite bind_ok by (apply (assess_block "WT" "wavelets"); exact Hr2).
  cbn [self trace ticks].
  erewrite redraw by eassumption.
  cbn [self trace ticks]. unfold trace_of_update.
  repeat rewrite <- app_assoc. reflexivity.
Qed.

End WithCollaborators.

Lemma update_without_selection_does_nothing_witness :
  current_file_path (self (mk_World (init "benchmark") [] 0)) = None /\
  @update_plots Samples.collaborators (mk_World (init "benchmark") [] 0)
  = (Ok tt, mk_World (init "benchmark") [] 0).
Proof.
  split; [reflexivity|].
  apply (@update_without_selection_does_nothing Samples.collaborators).
  reflexivity.
Defined.

Lemma assessment_errors_do_not_stop_the_update_witness :
  exists a1 a2 a3 a4,
    @assess_image_cleaning Samples.collaborators Samples.image_2d
      Samples.image_2d Samples.image_2d "all"
    = Raise (AssessError "empty reference image") /\
    _draw_image (self selected) (new_axes 221) Samples.image_2d "Input"
    = Ok a1 /\
    @update_plots Samples.collaborators selected =
    (Ok tt,
     mk_World
       (set_fig (mk_Figure [a1; a2; a3; a4] 2) (self selected))
       (trace_of_update (ext := Samples.collaborators) selected
          "benchmark/gamma.fits"
          (Raise (AssessError "empty reference image"))
          (Raise (AssessError "empty reference image")))
       4).
Proof.
  do 4 eexists. split; [reflexivity|]. split; [reflexivity|].
  apply (@assessment_errors_do_not_stop_the_update Samples.collaborators
           selected "benchmark/gamma.fits"
           [("input_image", Samples.image_2d);
            ("reference_image", Samples.image_2d)] []
           Samples.image_2d Samples.image_2d
           Samples.image_2d Samples.image_2d);
    reflexivity.
Defined.

End Widget.

(** ** The batch script *)

Module Script.

Import Numpy Mpl Trace PlotPerpendicularHitDistribution Outcomes.
Import PyFacts HitDistribution.

Lemma saved_files_app w1 w2 :
  saved_files (w1 ++ w2) = saved_files w1 ++ saved_files w2.
Proof. apply flat_map_app. Qed.

Section WithCollaborators.

Context {ext : Collaborators}.

(** A directory: the name [input_directory_path] is read, which nothing
    binds. *)
Lemma directory_argument_raises quiet output p w :
  isdir p = true ->
  process_arg quiet output p w =
  (Raise (NameError "input_directory_path"), w).
Proof.
  intros Hdir. unfold process_arg. rewrite Hdir.
  erewrite bind_raise; [reflexivity|].
  erewrite bind_raise; reflexivity.
Qed.

(** A file: the inner loop runs once, on it. *)
Lemma file_argument quiet output p w :
  isdir p = false ->
  process_arg quiet output p w = process_file quiet output p w.
Proof.
  intros Hdir. unfold process_arg. rewrite Hdir.
  erewrite bind_ok by reflexivity.
  rewrite for_each_cons. unfold bind.
  destruct (process_file quiet output p w) as [[o|e] w']; reflexivity.
Qed.

(** The loop body on a file that holds an image that is not 2D. *)
Lemma process_file_not_2d quiet output path w dict meta
      input_img reference_img :
  load_benchmark_images path = Ok (dict, meta) ->
  getitem dict "input_image" = Ok input_img ->
  getitem dict "reference_image" = Ok reference_img ->
  ndim input_img <> 2%nat \/ ndim reference_img <> 2%nat ->
  process_file quiet output path w =
  (Raise (Exception not_2d_message),
   w ++ [Call "images.load_benchmark_images" path]).
Proof.
  intros Hload Hin Href Hnd. unfold process_file.
  erewrite bind_ok by reflexivity.
  erewrite bind_ok by (unfold lift; rewrite Hload; reflexivity).
  cbv beta iota.
  erewrite bind_ok by (unfold lift; rewrite Hin; reflexivity).
  erewrite bind_ok by (unfold lift; rewrite Href; reflexivity).
  destruct (ndim input_img =? 2)%nat eqn:E1; cbn [negb].
  - destruct (ndim reference_img =? 2)%nat eqn:E2; cbn [negb].
    + apply Nat.eqb_eq in E1, E2. destruct Hnd; contradiction.
    + reflexivity.
  - reflexivity.
Qed.

(** The overlay on an image whose fit succeeded. *)
Lemma plot_ellipse_shower_on_image_ok axis image w n0 n1 h :
  shape_at image 0 = Ok n0 ->
  shape_at image 1 = Ok n1 ->
  hillas_parameters_2
    (flatten (fst (meshgrid (arange n0) (arange n1))))
    (flatten (snd (meshgrid (arange n0) (arange n1))))
    (flatten image) = Ok h ->
  plot_ellipse_shower_on_image axis image w =
  (Ok (ellipse_axes h axis), w ++ ellipse_prints h).
Proof.
  intros H0 H1 Hfit. unfold plot_ellipse_shower_on_image.
  erewrite bind_ok by (unfold lift; rewrite H0; reflexivity).
  erewrite bind_ok by (unfold lift; rewrite H1; reflexivity).
  unfold meshgrid in *. cbn [fst snd] in Hfit. cbv zeta.
  erewrite bind_ok by (unfold lift; rewrite Hfit; reflexivity).
  do 4 (erewrite bind_ok by reflexivity).
  unfold ret, ellipse_axes, ellipse_prints.
  rewrite <- !app_assoc. reflexivity.
Qed.

(** The loop body on a file all of whose steps succeed: the figure is
    saved under [output_name], which becomes the value of [output]. *)
Lemma process_file_saves quiet output path w dict meta
      input_img reference_img ax1 ax1' w1 h rest :
  load_benchmark_images path = Ok (dict, meta) ->
  getitem dict "input_image" = Ok input_img ->
  getitem dict "reference_image" = Ok reference_img ->
  ndim input_img = 2%nat ->
  ndim reference_img = 2%nat ->
  plot_image (new_axes 121) reference_img "Reference image" true
  = Ok ax1 ->
  plot_ellipse_shower_on_image
    ax1 reference_img (w ++ [Call "images.load_benchmark_images" path])
  = (Ok ax1', w1) ->
  hillas_parameters_1 grid_x grid_y (flatten reference_img)
  = Ok (h, rest) ->
  process_file quiet output path w =
  (Ok (Some (output_name output path)),
   w1 ++ Savefig (output_name output path)
                 (mk_Figure
                    [ax1';
                     hit_distribution_axes
                       h "Perpendicular hit distribution" (new_axes 122)]
                    0)
         :: (if quiet then [] else [Show])).
Proof.
  intros Hload Hin Href Hn1 Hn2 Hplot Hell Hfit. unfold process_file.
  erewrite bind_ok by reflexivity.
  erewrite bind_ok by (unfold lift; rewrite Hload; reflexivity).
  cbv beta iota.
  erewrite bind_ok by (unfold lift; rewrite Hin; reflexivity).
  erewrite bind_ok by (unfold lift; rewrite Href; reflexivity).
  rewrite Hn1, Hn2. cbn [Nat.eqb negb].
  erewrite bind_ok by (unfold lift; rewrite Hplot; reflexivity).
  erewrite bind_ok by (unfold emit, modify in *; exact Hell).
  erewrite bind_ok
    by exact (plot_perpendicular_hit_distribution_ok _ _ _ _ _ _ Hfit).
  fold (output_name output path).
  erewrite bind_ok by reflexivity.
  destruct quiet; cbn [negb].
  - erewrite bind_ok by reflexivity. unfold ret. reflexivity.
  - erewrite bind_ok by reflexivity. unfold ret.
    rewrite <- app_assoc. reflexivity.
Qed.

(** [main] stops at the first argument whose processing raises. *)
Lemma main_raises_on_first quiet output p rest w e w' :
  process_arg quiet output p w = (Raise e, w') ->
  main (mk_Args quiet output (p :: rest)) w = (Raise e, w').
Proof.
  intros H. unfold main; cbn [PlotPerpendicularHitDistribution.quiet
                              PlotPerpendicularHitDistribution.output
                              fileargs].
  erewrite bind_raise; [reflexivity|].
  rewrite for_each_cons. erewrite bind_raise; [reflexivity|exact H].
Qed.

End WithCollaborators.

(** *** Runs in the sample world *)

Lemma sample_process_file output path w :
  String.eqb path "bad.fits" = false ->
  exists fig w1,
    @process_file Samples.collaborators true output path w =
    (Ok (Some (output_name output path)),
     w1 ++ [Savefig (output_name output path) fig]) /\
    saved_files w1 = saved_files w.
Proof.
  intros Hpath.
  do 2 eexists. split.
  - eapply (@process_file_saves Samples.collaborators true output path w
              [("input_image", Samples.image_2d);
               ("reference_image", Samples.image_2d)] []
              Samples.image_2d Samples.image_2d);
      try reflexivity.
    + cbn [load_benchmark_images Samples.collaborators]. rewrite Hpath.
      reflexivity.
    + apply (@plot_ellipse_shower_on_image_ok Samples.collaborators)
        with (n0 := 2%nat) (n1 := 2%nat) (h := Samples.upright);
        reflexivity.
  - rewrite !saved_files_app. cbn [saved_files flat_map app].
    rewrite !app_nil_r. reflexivity.
Qed.

Lemma sample_process_arg output path w :
  String.eqb path "bad.fits" = false ->
  String.eqb path "data" = false ->
  exists fig w1,
    @process_arg Samples.collaborators true output path w =
    (Ok (Some (output_name output path)),
     w1 ++ [Savefig (output_name output path) fig]) /\
    saved_files w1 = saved_files w.
Proof.
  intros Hbad Hdir.
  rewrite (@file_argument Samples.collaborators) by exact Hdir.
  apply sample_process_file; exact Hbad.
Qed.

(** C6, on the code. A directory among the arguments is not expanded: the
    run stops with a [NameError] before any file is loaded or saved. *)
Theorem directory_argument_stops_the_run :
  @main Samples.collaborators (mk_Args true None ["data"]) [] =
  (Raise (NameError "input_directory_path"), []) /\
  @isdir Samples.collaborators "data" = true.
Proof.
  split; [|reflexivity].
  apply (@main_raises_on_first Samples.collaborators).
  apply (@directory_argument_raises Samples.collaborators). reflexivity.
Qed.

(** C9, on the code. Without [--output], the figure of the second file of
    a run is saved under the name made from the first file, not under its
    own. *)
Theorem second_figure_is_saved_under_the_first_name :
  exists w,
    @main Samples.collaborators (mk_Args true None ["a.fits"; "b.fits"]) []
    = (Ok tt, w) /\
    saved_files w = ["a.pdf"; "a.pdf"] /\
    output_name None "b.fits" = "b.pdf".
Proof.
  destruct (sample_process_arg None "a.fits" []) as (fig1 & w1 & Hrun1 & Hs1);
    try reflexivity.
  destruct (sample_process_arg (Some (output_name None "a.fits")) "b.fits"
              (w1 ++ [Savefig (output_name None "a.fits") fig1]))
    as (fig2 & w2 & Hrun2 & Hs2); try reflexivity.
  eexists. split; [|split; [|reflexivity]].
  - unfold main; cbn [PlotPerpendicularHitDistribution.quiet
                      PlotPerpendicularHitDistribution.output fileargs].
    erewrite bind_ok; [reflexivity|].
    rewrite for_each_cons. erewrite bind_ok by exact Hrun1.
    rewrite for_each_cons. erewrite bind_ok by exact Hrun2.
    reflexivity.
  - rewrite saved_files_app, Hs2, saved_files_app, Hs1. reflexivity.
Qed.

End Script.

(** ** Images that are not 2D, in both programs *)

Module MalformedInput.

Import Numpy Trace PyFacts Outcomes.

Section WithCollaborators.

Context {ext : Collaborators}.

(** C7. When the loaded file holds an input image or a reference image
    that is not a 2D array, processing it raises an [Exception], with
    nothing done for the file but the loading: in the loop body of the
    batch script, hence in [main] when the file is its first argument,
    and in the update of the container. *)
Theorem image_that_is_not_2d_raises
        path dict meta input_img reference_img :
  load_benchmark_images path = Ok (dict, meta) ->
  getitem dict "input_image" = Ok input_img ->
  getitem dict "reference_image" = Ok reference_img ->
  ndim input_img <> 2%nat \/ ndim reference_img <> 2%nat ->
  (forall quiet output w,
     PlotPerpendicularHitDistribution.process_file quiet output path w =
     (Raise (Exception
               "Unexpected error: the input FITS file should contain a 2D array."),
      w ++ [Call "images.load_benchmark_images" path])) /\
  (forall quiet output rest w,
     isdir path = false ->
     PlotPerpendicularHitDistribution.main
       (PlotPerpendicularHitDistribution.mk_Args
          quiet output (path :: rest)) w =
     (Raise (Exception
               "Unexpected error: the input FITS file should contain a 2D array."),
      w ++ [Call "images.load_benchmark_images" path])) /\
  (forall w,
     BenchmarkPlotsContainer.current_file_path
       (BenchmarkPlotsContainer.self w) = Some path ->
     BenchmarkPlotsContainer.update_plots w =
     (Raise (Exception
               "Unexpected error: the input FITS file should contain a 2D array."),
      BenchmarkPlotsContainer.mk_World
        (BenchmarkPlotsContainer.self w)
        (BenchmarkPlotsContainer.trace w
         ++ [Call "images.load_benchmark_images" path])
        (BenchmarkPlotsContainer.ticks w))).
Proof.
  intros Hload Hin Href Hnd. split; [|split].
  - intros quiet output w.
    exact (Script.process_file_not_2d quiet output path w dict meta
             input_img reference_img Hload Hin Href Hnd).
  - intros quiet output rest w Hfile.
    apply Script.main_raises_on_first.
    rewrite Script.file_argument by exact Hfile.
    exact (Script.process_file_not_2d quiet output path w dict meta
             input_img reference_img Hload Hin Href Hnd).
  - intros w Hpath.
    exact (Widget.update_plots_not_2d w path dict meta
             input_img reference_img Hpath Hload Hin Href Hnd).
Qed.

End WithCollaborators.

Lemma image_that_is_not_2d_raises_witness :
  (ndim Samples.image_1d <> 2%nat \/ ndim Samples.image_2d <> 2%nat) /\
  @PlotPerpendicularHitDistribution.main Samples.collaborators
    (PlotPerpendicularHitDistribution.mk_Args true None ["bad.fits"]) [] =
  (Raise (Exception
            "Unexpected error: the input FITS file should contain a 2D array."),
   [Call "images.load_benchmark_images" "bad.fits"]) /\
  @BenchmarkPlotsContainer.update_plots Samples.collaborators selected_bad =
  (Raise (Exception
            "Unexpected error: the input FITS file should contain a 2D array."),
   BenchmarkPlotsContainer.mk_World
     (BenchmarkPlotsContainer.self selected_bad)
     [Call "images.load_benchmark_images" "bad.fits"] 0).
Proof.
  assert (Hnd : ndim Samples.image_1d <> 2%nat
                \/ ndim Samples.image_2d <> 2%nat)
    by (left; discriminate).
  pose proof (@image_that_is_not_2d_raises Samples.collaborators
                "bad.fits"
                [("input_image", Samples.image_1d);
                 ("reference_image", Samples.image_2d)] []
                Samples.image_1d Samples.image_2d
                eq_refl eq_refl eq_refl Hnd) as [_ [Hmain Hgui]].
  split; [exact Hnd|]. split.
  - exact (Hmain true None [] [] eq_refl).
  - exact (Hgui selected_bad eq_refl).
Defined.

End MalformedInput.

(** ** The geometry of the projection *)

Module HitGeometry.

Import Numpy Mpl Trace PlotPerpendicularHitDistribution Outcomes Scenarios.
Import NumpyFacts LinalgFacts HitDistribution.

Lemma p1_eq_p2_iff h : p1 h = p2 h <-> Hillas.length h = 0.
Proof.
  unfold p1, p2. rewrite cos_plus_half_pi, sin_plus_half_pi. split.
  - intros E. injection E as E1 E2.
    pose proof (sin2_cos2 (Hillas.psi h)) as H1. unfold Rsqr in H1.
    assert (Hs : Hillas.length h * sin (Hillas.psi h) = 0) by lra.
    assert (Hc : Hillas.length h * cos (Hillas.psi h) = 0) by lra.
    destruct (Req_dec_T (Hillas.length h) 0) as [|Hne]; [assumption|].
    apply Rmult_integral in Hs, Hc.
    destruct Hs as [|Hs]; [contradiction|].
    destruct Hc as [|Hc]; [contradiction|].
    rewrite Hs, Hc in H1. lra.
  - intros ->. f_equal; ring.
Qed.

Lemma T_unit h :
  p1 h <> p2 h ->
  exists t0 t1, T h = Some (t0, t1) /\ t0 * t0 + t1 * t1 = 1.
Proof.
  intros Hne. unfold T.
  destruct (p1 h) as [a b] eqn:E1, (p2 h) as [c d] eqn:E2.
  assert (Hv : (a - c, b - d) <> (0, 0)).
  { intros E. injection E as Ea Eb. apply Hne. f_equal; lra. }
  pose proof (normalise_nonzero _ Hv) as Hn.
  pose proof (normalise_unit _ _ Hn) as Hu. cbn [fst snd] in *.
  eexists _, _. split; [exact Hn|exact Hu].
Qed.

(** X1. The pair (dl, dp) is the displacement [D] in an orthonormal basis:
    whenever [p1] and [p2] differ, every pixel has
    [dl^2 + dp^2 = D_x^2 + D_y^2]. *)
Theorem projection_preserves_distance h x y :
  p1 h <> p2 h ->
  exists L P : R * R -> R,
    dl h x y = map (fun xy => Some (L xy)) (combine x y) /\
    dp h x y = map (fun xy => Some (P xy)) (combine x y) /\
    forall xy,
      L xy * L xy + P xy * P xy =
      (Hillas.cen_x h - fst xy) * (Hillas.cen_x h - fst xy)
      + (Hillas.cen_y h - snd xy) * (Hillas.cen_y h - snd xy).
Proof.
  intros Hne. destruct (T_unit h Hne) as (t0 & t1 & HT & Hu).
  exists (fun xy => (Hillas.cen_x h - fst xy) * t0
                    + (Hillas.cen_y h - snd xy) * t1),
    (fun xy => (Hillas.cen_x h - fst xy) * t1
               - (Hillas.cen_y h - snd xy) * t0).
  rewrite dl_pointwise, dp_pointwise, HT.
  split; [reflexivity|]. split; [reflexivity|].
  intros [a b]; cbn [fst snd].
  set (dx := Hillas.cen_x h - a). set (dy := Hillas.cen_y h - b).
  replace ((dx * t0 + dy * t1) * (dx * t0 + dy * t1)
           + (dx * t1 - dy * t0) * (dx * t1 - dy * t0))
    with ((dx * dx + dy * dy) * (t0 * t0 + t1 * t1)) by ring.
  rewrite Hu. ring.
Qed.

Lemma upright_p1_p2 : p1 Samples.upright <> p2 Samples.upright.
Proof.
  rewrite p2_upright. unfold p1, Samples.upright; simpl.
  intros E; inversion E; lra.
Qed.

Lemma projection_preserves_distance_witness :
  p1 Samples.upright <> p2 Samples.upright /\
  exists L P : R * R -> R,
    dl Samples.upright grid_x grid_y
    = map (fun xy => Some (L xy)) (combine grid_x grid_y) /\
    dp Samples.upright grid_x grid_y
    = map (fun xy => Some (P xy)) (combine grid_x grid_y) /\
    forall xy,
      L xy * L xy + P xy * P xy =
      (Hillas.cen_x Samples.upright - fst xy)
      * (Hillas.cen_x Samples.upright - fst xy)
      + (Hillas.cen_y Samples.upright - snd xy)
        * (Hillas.cen_y Samples.upright - snd xy).
Proof.
  split; [exact upright_p1_p2|].
  exact (projection_preserves_distance Samples.upright grid_x grid_y
           upright_p1_p2).
Defined.

(** For a positive length the basis vector is [(sin psi, -cos psi)]. *)
Lemma T_of_positive_length h :
  0 < Hillas.length h ->
  T h = Some (sin (Hillas.psi h), - cos (Hillas.psi h)).
Proof.
  intros HL. unfold T, p1, p2.
  rewrite cos_plus_half_pi, sin_plus_half_pi.
  set (L := Hillas.length h) in *. set (s := sin (Hillas.psi h)).
  set (c := cos (Hillas.psi h)).
  replace (Hillas.cen_x h - (Hillas.cen_x h + L * - s)) with (L * s)
    by ring.
  replace (Hillas.cen_y h - (Hillas.cen_y h + L * c)) with (- (L * c))
    by ring.
  assert (Hlen : Linalg.length (L * s, - (L * c)) = L).
  { unfold Linalg.length; cbn [fst snd].
    replace (L * s * (L * s) + - (L * c) * - (L * c))
      with (L * L * (s * s + c * c)) by ring.
    pose proof (sin2_cos2 (Hillas.psi h)) as H1. unfold Rsqr in H1.
    fold s c in H1. rewrite H1, Rmult_1_r. apply sqrt_square; lra. }
  unfold Linalg.normalise. rewrite Hlen.
  destruct (Req_dec_T L 0) as [E|E]; [lra|].
  cbn [fst snd]. f_equal; f_equal; field; assumption.
Qed.

(** X2. For a fit of positive length, the quantity that is binned is the
    coordinate of the pixel along the direction [(cos psi, sin psi)],
    measured from the centroid:
    [dp = (x - cen_x) * cos psi + (y - cen_y) * sin psi]. It depends on the
    fit through the centroid and [psi] only, not through the length or the
    width. *)
Theorem binned_quantity_is_coordinate_along_psi h x y :
  0 < Hillas.length h ->
  dp h x y =
  map (fun xy => Some ((fst xy - Hillas.cen_x h) * cos (Hillas.psi h)
                       + (snd xy - Hillas.cen_y h) * sin (Hillas.psi h)))
      (combine x y) /\
  forall h',
    0 < Hillas.length h' ->
    Hillas.cen_x h' = Hillas.cen_x h ->
    Hillas.cen_y h' = Hillas.cen_y h ->
    Hillas.psi h' = Hillas.psi h ->
    dp h' x y = dp h x y.
Proof.
  intros HL.
  assert (Hdp : forall g, 0 < Hillas.length g ->
            dp g x y =
            map (fun xy =>
                   Some ((fst xy - Hillas.cen_x g) * cos (Hillas.psi g)
                         + (snd xy - Hillas.cen_y g) * sin (Hillas.psi g)))
                (combine x y)).
  { intros g Hg. rewrite dp_pointwise, (T_of_positive_length g Hg).
    apply map_ext; intros [a b]; unfold cross; cbn [fst snd].
    f_equal; ring. }
  split; [exact (Hdp h HL)|].
  intros h' HL' Ex Ey Ep. rewrite (Hdp h' HL'), (Hdp h HL), Ex, Ey, Ep.
  reflexivity.
Qed.

Lemma binned_quantity_is_coordinate_along_psi_witness :
  0 < Hillas.length Samples.upright /\
  0 < Hillas.length upright_long /\
  dp upright_long grid_x grid_y = dp Samples.upright grid_x grid_y.
Proof.
  assert (H1 : 0 < Hillas.length Samples.upright) by (simpl; lra).
  assert (H2 : 0 < Hillas.length upright_long) by (simpl; lra).
  split; [exact H1|]. split; [exact H2|].
  exact (proj2 (binned_quantity_is_coordinate_along_psi
                  Samples.upright grid_x grid_y H1)
           upright_long H2 eq_refl eq_refl eq_refl).
Defined.

Lemma count_if_all_nan f : forall a : list float64,
  (forall v, In v a -> f v = false) -> count_if f a = 0%nat.
Proof.
  induction a as [|v a IH]; intros H; [reflexivity|].
  rewrite count_if_cons, (H v) by (left; reflexivity).
  apply IH; intros u Hu; apply H; right; exact Hu.
Qed.

Lemma histogram_counts_all_nan (a : list float64) :
  (forall v, In v a -> v = None) ->
  forall edges,
    histogram_counts a edges = repeat 0%nat (List.length edges - 1).
Proof.
  intros Hnan. induction edges as [|lo [|hi tl] IH]; try reflexivity.
  change (histogram_counts a (lo :: hi :: tl))
    with (count_if (in_bin (is_nil tl) lo hi) a
            :: histogram_counts a (hi :: tl)).
  rewrite IH, count_if_all_nan.
  - cbn [List.length Nat.sub]. rewrite Nat.sub_0_r. reflexivity.
  - intros v Hv. rewrite (Hnan v Hv). reflexivity.
Qed.

(** X3. For a fit of length zero, [p2] is [p1], the basis vector is nan
    and so is every [dp]; the function still returns, and all 30 bins of
    both histograms are empty. *)
Theorem zero_length_gives_empty_histograms
        {ext : Collaborators} axis image title w h rest :
  hillas_parameters_1 grid_x grid_y (flatten image) = Ok (h, rest) ->
  Hillas.length h = 0 ->
  T h = None /\
  (forall v, In v (dp h grid_x grid_y) -> v = None) /\
  exists axis',
    plot_perpendicular_hit_distribution axis image title w = (Ok axis', w) /\
    histograms axis' =
    histograms axis ++ [("ref.", repeat 0%nat 30, hit_bins);
                        ("cleaned", repeat 0%nat 30, hit_bins)].
Proof.
  intros Hfit HL.
  assert (HT : T h = None).
  { apply p1_eq_p2_iff in HL. unfold T. rewrite <- HL.
    destruct (p1 h) as [a b].
    replace (a - a) with 0 by ring. replace (b - b) with 0 by ring.
    apply normalise_zero. }
  assert (Hnan : forall v, In v (dp h grid_x grid_y) -> v = None).
  { intros v Hv. rewrite dp_pointwise, HT in Hv.
    apply in_map_iff in Hv. destruct Hv as (xy & <- & _). reflexivity. }
  split; [exact HT|]. split; [exact Hnan|].
  eexists. split.
  - exact (plot_perpendicular_hit_distribution_ok _ _ _ _ _ _ Hfit).
  - unfold hit_distribution_axes.
    rewrite histograms_decorated, !histograms_add_hist, <- app_assoc.
    rewrite (histogram_counts_all_nan _ Hnan).
    replace (List.length hit_bins) with 31%nat
      by (symmetry; apply length_linspace).
    reflexivity.
Qed.

Lemma zero_length_gives_empty_histograms_witness :
  @hillas_parameters_1 Scenarios.collaborators grid_x grid_y
    (flatten Samples.image_2d) = Ok (point_like, []) /\
  Hillas.length point_like = 0 /\
  T point_like = None /\
  exists axis',
    @plot_perpendicular_hit_distribution Scenarios.collaborators
      (new_axes 122) Samples.image_2d "Perpendicular hit distribution" []
    = (Ok axis', []) /\
    histograms axis' =
    histograms (new_axes 122) ++ [("ref.", repeat 0%nat 30, hit_bins);
                                  ("cleaned", repeat 0%nat 30, hit_bins)].
Proof.
  split; [reflexivity|]. split; [reflexivity|].
  destruct (@zero_length_gives_empty_histograms Scenarios.collaborators
              (new_axes 122) Samples.image_2d
              "Perpendicular hit distribution" [] point_like []
              eq_refl eq_refl) as (HT & _ & Hrun).
  split; [exact HT|exact Hrun].
Defined.

End HitGeometry.

(** ** Drawing one image *)

Module Drawing.

Import Numpy Mpl Trace Outcomes Scenarios.




Lemma size_2d n0 n1 : size (mk_ndarray [n0; n1] []) = (n0 * n1)%nat.
Proof. unfold size; simpl. lia. Qed.


Section ImageOfTheScript.

Import PlotPerpendicularHitDistribution.



End ImageOfTheScript.


Section ImageOfTheWidget.

Import BenchmarkPlotsContainer.


End ImageOfTheWidget.


End Drawing.

(** ** The coordinates of the ellipse fit *)

Module EllipseCloud.

Import Numpy Mpl Trace PlotPerpendicularHitDistribution Outcomes Scenarios.
Import PyFacts.

Lemma nth_concat_rows {A} (n : nat) (d : A) : forall rows i j,
  (forall r, In r rows -> List.length r = n) ->
  (i < List.length rows)%nat -> (j < n)%nat ->
  nth (i * n + j) (List.concat rows) d = nth j (nth i rows []) d.
Proof.
  induction rows as [|r rows IH]; intros i j Hn Hi Hj;
    [simpl in Hi; lia|].
  cbn [List.concat]. destruct i as [|i].
  - cbn [Nat.mul Nat.add nth]. apply app_nth1.
    rewrite (Hn r) by (left; reflexivity). exact Hj.
  - rewrite app_nth2 by (rewrite (Hn r) by (left; reflexivity); lia).
    rewrite (Hn r) by (left; reflexivity).
    replace (S i * n + j - n)%nat with (i * n + j)%nat by lia.
    cbn [nth]. apply IH; [|simpl in Hi; lia|exact Hj].
    intros r' Hr'. apply Hn. right; exact Hr'.
Qed.

Lemma length_concat_rows {A} (n : nat) : forall rows : list (list A),
  (forall r, In r rows -> List.length r = n) ->
  List.length (List.concat rows) = (List.length rows * n)%nat.
Proof.
  induction rows as [|r rows IH]; intros Hn; [reflexivity|].
  cbn [List.concat List.length]. rewrite length_app, IH, (Hn r).
  - lia.
  - left; reflexivity.
  - intros r' Hr'. apply Hn. right; exact Hr'.
Qed.

Lemma length_arange n : List.length (arange n) = n.
Proof. unfold arange. rewrite length_map, length_seq. reflexivity. Qed.

Lemma nth_arange n j : (j < n)%nat -> nth j (arange n) 0 = INR j.
Proof.
  intros Hj. unfold arange.
  rewrite (nth_indep _ 0 (INR 0)) by (rewrite length_map, length_seq; lia).
  rewrite map_nth, seq_nth by lia. reflexivity.
Qed.

(** Element [i * len(x) + j] of the flattened grids of [meshgrid(x, y)] is
    [(x[j], y[i])]. *)
Lemma nth_meshgrid x y i j :
  (i < List.length y)%nat -> (j < List.length x)%nat ->
  nth (i * List.length x + j) (flatten (fst (meshgrid x y))) 0 = nth j x 0 /\
  nth (i * List.length x + j) (flatten (snd (meshgrid x y))) 0 = nth i y 0.
Proof.
  intros Hi Hj. unfold meshgrid, flatten; cbn [fst snd data]. split.
  - rewrite (nth_concat_rows (List.length x)).
    + rewrite (nth_indep _ [] ((fun _ : R => x) 0))
        by (rewrite length_map; exact Hi).
      rewrite (map_nth (fun _ : R => x) y 0). reflexivity.
    + intros r Hr. apply in_map_iff in Hr. destruct Hr as (_ & <- & _).
      reflexivity.
    + rewrite length_map; exact Hi.
    + exact Hj.
  - rewrite (nth_concat_rows (List.length x)).
    + set (f := fun yi : R => map (fun _ : R => yi) x).
      rewrite (nth_indep _ [] (f 0)) by (rewrite length_map; exact Hi).
      rewrite (map_nth f). unfold f.
      rewrite (nth_indep _ 0 ((fun _ : R => nth i y 0) 0))
        by (rewrite length_map; exact Hj).
      rewrite (map_nth (fun _ : R => nth i y 0) x 0). reflexivity.
    + intros r Hr. apply in_map_iff in Hr. destruct Hr as (yi & <- & _).
      apply length_map.
    + rewrite length_map; exact Hi.
    + exact Hj.
Qed.

Lemma length_meshgrid x y :
  List.length (flatten (fst (meshgrid x y)))
  = (List.length y * List.length x)%nat /\
  List.length (flatten (snd (meshgrid x y)))
  = (List.length y * List.length x)%nat.
Proof.
  unfold meshgrid, flatten; cbn [fst snd data]. split.
  - rewrite (length_concat_rows (List.length x)), length_map; [reflexivity|].
    intros r Hr. apply in_map_iff in Hr. destruct Hr as (_ & <- & _).
    reflexivity.
  - rewrite (length_concat_rows (List.length x)), length_map; [reflexivity|].
    intros r Hr. apply in_map_iff in Hr. destruct Hr as (yi & <- & _).
    apply length_map.
Qed.

Section WithCollaborators.

Context {ext : Collaborators}.

(** X6. For an image of shape [(n0, n1)], [plot_ellipse_shower_on_image]
    fits the pixel values against a cloud of [n0 * n1] points whose
    [k]-th point is [(k mod n0, k div n0)] (the pixel values being taken in
    row-major order, where pixel [k] is in row [k div n1] and column
    [k mod n1]). If the fit raises, the function raises the same error and
    has printed nothing; if it returns, the function prints the four
    parameters and draws the ellipse, the centroid and the three axes. *)
Theorem ellipse_is_fitted_on_the_index_grid axis image w n0 n1 :
  shape image = [n0; n1] ->
  exists xs ys,
    List.length xs = (n1 * n0)%nat /\
    List.length ys = (n1 * n0)%nat /\
    (forall k, (k < n1 * n0)%nat ->
       nth k xs 0 = INR (k mod n0) /\ nth k ys 0 = INR (k / n0)) /\
    (forall e,
       hillas_parameters_2 xs ys (flatten image) = Raise e ->
       plot_ellipse_shower_on_image axis image w = (Raise e, w)) /\
    (forall h,
       hillas_parameters_2 xs ys (flatten image) = Ok h ->
       plot_ellipse_shower_on_image axis image w =
       (Ok (ellipse_axes h axis), w ++ ellipse_prints h)).
Proof.
  intros Hs.
  exists (flatten (fst (meshgrid (arange n0) (arange n1)))),
    (flatten (snd (meshgrid (arange n0) (arange n1)))).
  destruct (length_meshgrid (arange n0) (arange n1)) as [Lx Ly].
  rewrite !length_arange in Lx, Ly.
  assert (H0 : shape_at image 0 = Ok n0)
    by (unfold shape_at; rewrite Hs; reflexivity).
  assert (H1 : shape_at image 1 = Ok n1)
    by (unfold shape_at; rewrite Hs; reflexivity).
  split; [exact Lx|]. split; [exact Ly|]. split; [|split].
  - intros k Hk.
    assert (Hn0 : n0 <> 0%nat) by (intros ->; lia).
    pose proof (Nat.div_mod_eq k n0) as Hdm.
    pose proof (Nat.mod_upper_bound k n0 Hn0) as Hm.
    assert (Hd : (k / n0 < n1)%nat)
      by (apply Nat.Div0.div_lt_upper_bound; lia).
    destruct (nth_meshgrid (arange n0) (arange n1) (k / n0) (k mod n0))
      as [Ex Ey]; rewrite ?length_arange; try assumption.
    rewrite length_arange in Ex, Ey.
    replace (k / n0 * n0 + k mod n0)%nat with k in Ex, Ey by lia.
    rewrite Ex, Ey, !nth_arange by assumption. split; reflexivity.
  - intros e He. unfold plot_ellipse_shower_on_image.
    erewrite bind_ok by (unfold lift; rewrite H0; reflexivity).
    erewrite bind_ok by (unfold lift; rewrite H1; reflexivity).
    unfold meshgrid in *. cbn [fst snd] in He. cbv zeta.
    erewrite bind_raise; [reflexivity|].
    unfold lift; rewrite He; reflexivity.
  - intros h Hh.
    apply (Script.plot_ellipse_shower_on_image_ok axis image w n0 n1 h);
      assumption.
Qed.

End WithCollaborators.

Lemma ellipse_is_fitted_on_the_index_grid_witness :
  shape row_image = [1; 4]%nat /\
  exists xs ys,
    List.length xs = 4%nat /\
    nth 2 xs 0 = INR 0 /\ nth 2 ys 0 = INR 2 /\
    @plot_ellipse_shower_on_image Samples.collaborators
      (new_axes 121) row_image [] =
    (Ok (ellipse_axes Samples.upright (new_axes 121)),
     ellipse_prints Samples.upright).
Proof.
  split; [reflexivity|].
  destruct (@ellipse_is_fitted_on_the_index_grid Samples.collaborators
              (new_axes 121) row_image [] 1%nat 4%nat eq_refl)
    as (xs & ys & Lx & _ & Hk & _ & Hok).
  exists xs, ys. split; [exact Lx|].
  destruct (Hk 2%nat ltac:(lia)) as [Ex Ey].
  split; [exact Ex|]. split; [exact Ey|].
  exact (Hok Samples.upright eq_refl).
Defined.

End EllipseCloud.

(** ** Runs of the script over several arguments *)

Module BatchRuns.

Import Numpy Mpl Trace PlotPerpendicularHitDistribution Outcomes Scenarios.
Import PyFacts.






Section WithCollaborators.

Context {ext : Collaborators}.









End WithCollaborators.

(** *** In the sample worlds *)







End BatchRuns.

(** ** The name of the saved figure *)

Module OutputName.

Import OsPath Outcomes Scenarios.

Lemma rfind_succ_without c : forall s,
  without c s -> rfind_succ c s = 0%nat.
Proof.
  induction s as [|a s IH]; intros Hw; [reflexivity|].
  destruct Hw as [Hne Hw]. cbn [rfind_succ]. rewrite (IH Hw).
  destruct (Ascii.eqb_spec a c); [contradiction|reflexivity].
Qed.

Lemma rfind_succ_last c b : forall a,
  without c b ->
  rfind_succ c (a ++ String c b) = S (String.length a).
Proof.
  intros a Hb. induction a as [|x a IH].
  - cbn [append rfind_succ String.length].
    rewrite (rfind_succ_without c b Hb), Ascii.eqb_refl. reflexivity.
  - cbn [append rfind_succ String.length]. rewrite IH. reflexivity.
Qed.

Lemma without_app c : forall a b,
  without c a -> without c b -> without c (a ++ b).
Proof.
  induction a as [|x a IH]; intros b Ha Hb; [exact Hb|].
  destruct Ha as [Hx Ha]. split; [exact Hx|apply IH; assumption].
Qed.

Lemma substring_all : forall s, substring 0 (String.length s) s = s.
Proof.
  induction s as [|a s IH]; [reflexivity|].
  cbn [String.length substring]. rewrite IH. reflexivity.
Qed.

Lemma slice_from_after c b : forall a,
  slice_from (S (String.length a)) (a ++ String c b) = b.
Proof.
  unfold slice_from. induction a as [|x a IH].
  - cbn [append String.length substring Nat.sub].
    rewrite Nat.sub_0_r. apply substring_all.
  - cbn [append String.length substring]. cbn [String.length] in IH.
    replace (S (String.length (a ++ String c b)) - S (S (String.length a)))%nat
      with (String.length (a ++ String c b) - S (String.length a))%nat
      by lia.
    exact IH.
Qed.

Lemma slice_to_before b : forall a,
  slice_to (String.length a) (a ++ b) = a.
Proof.
  unfold slice_to. induction a as [|x a IH].
  - destruct b; reflexivity.
  - cbn [append String.length substring]. rewrite IH. reflexivity.
Qed.

(** The directory part goes: the last component of [dir/rest] is [rest]. *)
Lemma basename_of_joined dir rest :
  without slash rest -> basename (dir ++ String slash rest) = rest.
Proof.
  intros Hr. unfold basename. rewrite (rfind_succ_last slash rest dir Hr).
  apply slice_from_after.
Qed.

Lemma basename_of_plain rest : without slash rest -> basename rest = rest.
Proof.
  intros Hr. unfold basename, slice_from.
  rewrite (rfind_succ_without slash rest Hr), Nat.sub_0_r.
  apply substring_all.
Qed.

(** The extension goes: the stem of [stem.ext] is [stem]. *)
Lemma splitext_of_stem stem ext :
  stem <> "" -> without slash stem -> without dot stem ->
  without slash ext -> without dot ext ->
  fst (splitext (stem ++ String dot ext)) = stem.
Proof.
  intros Hne Hs1 Hd1 Hs2 Hd2. unfold splitext.
  assert (Hsl : without slash (stem ++ String dot ext)).
  { apply without_app; [exact Hs1|]. split; [discriminate|exact Hs2]. }
  rewrite (rfind_succ_without slash _ Hsl),
    (rfind_succ_last dot ext stem Hd2).
  destruct stem as [|ch stem]; [congruence|].
  destruct Hd1 as [Hch _].
  cbn [String.length Nat.ltb Nat.leb Nat.sub]. rewrite ?Nat.sub_0_r.
  cbn [has_non_dot append String.get].
  destruct (Ascii.eqb_spec ch dot); [contradiction|].
  cbn [fst]. apply (slice_to_before (String dot ext) (String ch stem)).
Qed.

(** X11. Without [--output], the first figure of a run is written to the
    working directory under the name of the input file with its extension
    replaced: for an input [dir/stem.ext] (or [stem.ext]) whose stem is not
    empty and has no dot, the name is [stem.pdf], whatever the
    directory. *)
Theorem default_name_drops_directory_and_extension dir stem ext :
  stem <> "" ->
  without slash stem -> without dot stem ->
  without slash ext -> without dot ext ->
  output_name None (dir ++ String slash (stem ++ String dot ext))
  = (stem ++ ".pdf")%string /\
  output_name None (stem ++ String dot ext) = (stem ++ ".pdf")%string.
Proof.
  intros Hne Hs1 Hd1 Hs2 Hd2.
  assert (Hsl : without slash (stem ++ String dot ext)).
  { apply without_app; [exact Hs1|]. split; [discriminate|exact Hs2]. }
  unfold output_name.
  rewrite (basename_of_joined dir _ Hsl), (basename_of_plain _ Hsl),
    (splitext_of_stem stem ext Hne Hs1 Hd1 Hs2 Hd2).
  split; reflexivity.
Qed.

Lemma default_name_drops_directory_and_extension_witness :
  "gamma_1"%string <> ""%string /\
  without slash "gamma_1" /\ without dot "gamma_1" /\
  without slash "fits" /\ without dot "fits" /\
  output_name None "runs.2016/astri/gamma_1.fits" = "gamma_1.pdf".
Proof.
  assert (H1 : "gamma_1"%string <> ""%string) by discriminate.
  assert (H2 : without slash "gamma_1")
    by (cbn [without]; repeat split; discriminate).
  assert (H3 : without dot "gamma_1")
    by (cbn [without]; repeat split; discriminate).
  assert (H4 : without slash "fits")
    by (cbn [without]; repeat split; discriminate).
  assert (H5 : without dot "fits")
    by (cbn [without]; repeat split; discriminate).
  repeat (split; [assumption|]).
  exact (proj1 (default_name_drops_directory_and_extension
                  "runs.2016/astri" "gamma_1" "fits" H1 H2 H3 H4 H5)).
Defined.

End OutputName.

(** ** What the container keeps, and where an update can stop *)

Module WidgetRuns.

Import Numpy Mpl Trace BenchmarkPlotsContainer Outcomes Scenarios.
Import PyFacts Widget.

Lemma settings_kept_refl w : settings_kept w w.
Proof.
  unfold settings_kept. repeat split; try reflexivity.
  exists []. symmetry; apply app_nil_r.
Qed.

Lemma settings_kept_trans w1 w2 w3 :
  settings_kept w1 w2 -> settings_kept w2 w3 -> settings_kept w1 w3.
Proof.
  unfold settings_kept.
  intros (A1 & A2 & A3 & A4 & A5 & A6 & A7 & (e1 & A8) & A9)
         (B1 & B2 & B3 & B4 & B5 & B6 & B7 & (e2 & B8) & B9).
  repeat split; try congruence; try lia.
  exists (e1 ++ e2). rewrite B8, A8, app_assoc. reflexivity.
Qed.

Section WithCollaborators.

Context {ext : Collaborators}.

Lemma keeps_ret {A} (a : A) : keeps (ret a).
Proof. intros w. apply settings_kept_refl. Qed.

Lemma keeps_raise {A} e : keeps (@raise World A e).
Proof. intros w. apply settings_kept_refl. Qed.

Lemma keeps_lift {A} (r : result A) : keeps (lift r).
Proof. intros w. apply settings_kept_refl. Qed.

Lemma keeps_get : keeps (@get World).
Proof. intros w. apply settings_kept_refl. Qed.

Lemma keeps_emit e : keeps (emit e).
Proof.
  intros w. unfold settings_kept; cbn. repeat split; try reflexivity.
  exists [e]. reflexivity.
Qed.

Lemma keeps_modify_fig f : keeps (modify_fig f).
Proof.
  intros w. unfold settings_kept; cbn. repeat split; try reflexivity.
  exists []. symmetry; apply app_nil_r.
Qed.

Lemma keeps_read_perf_counter : keeps read_perf_counter.
Proof.
  intros w. unfold settings_kept; cbn. repeat split; try reflexivity;
    try lia.
  exists []. symmetry; apply app_nil_r.
Qed.

Lemma keeps_bind {A B} (m : M World A) (k : A -> M World B) :
  keeps m -> (forall a, keeps (k a)) -> keeps (bind m k).
Proof.
  intros Hm Hk w. unfold bind. specialize (Hm w).
  destruct (m w) as [[a|e] w1]; cbn [snd] in *; [|exact Hm].
  eapply settings_kept_trans; [exact Hm|apply Hk].
Qed.

Lemma keeps_try_except {A} (body handler : M World A) catches :
  keeps body -> keeps handler -> keeps (try_except body catches handler).
Proof.
  intros Hb Hh w. unfold try_except. specialize (Hb w).
  destruct (body w) as [[a|e] w1]; cbn [snd] in *; [exact Hb|].
  destruct (catches e); [|exact Hb].
  eapply settings_kept_trans; [exact Hb|apply Hh].
Qed.

(** Take an action apart down to the primitive ones. *)
Ltac keep :=
  repeat first
    [ apply keeps_ret | apply keeps_raise | apply keeps_lift
    | apply keeps_get | apply keeps_emit | apply keeps_modify_fig
    | apply keeps_read_perf_counter
    | apply keeps_try_except
    | apply keeps_bind; [|intros ?]
    | progress cbv zeta
    | match goal with
      | |- keeps (match ?x with _ => _ end) => destruct x
      end ].

Lemma keeps_draw_image_at pos image title :
  keeps (draw_image_at pos image title).
Proof. unfold draw_image_at. keep. Qed.

Lemma keeps_update_plots : keeps update_plots.
Proof.
  unfold update_plots, clear_figure. keep; apply keeps_draw_image_at.
Qed.

(** X12. An update never touches the selection or the settings: whether
    it returns or raises, and wherever it raises, the directory, the
    selected file, the isolated-pixels flag, the colour map, the colour-bar
    flag, the text of the options entry and the state of the switch are
    what they were; what was printed before is still there, followed by
    what the update printed. Only the figure can differ. *)
Theorem update_keeps_selection_and_settings (w : World) :
  settings_kept w (snd (update_plots w)).
Proof. apply keeps_update_plots. Qed.

(** The update on a selected file that loads and is cleaned twice, up to
    the assessments. *)
Lemma update_plots_after_cleaning
      w path dict meta input_img reference_img tc wt :
  current_file_path (self w) = Some path ->
  load_benchmark_images path = Ok (dict, meta) ->
  getitem dict "input_image" = Ok input_img ->
  getitem dict "reference_image" = Ok reference_img ->
  ndim input_img = 2%nat ->
  ndim reference_img = 2%nat ->
  tailcut_clean_image input_img 10 5 = Ok tc ->
  wavelets_clean_image input_img (kill_isolated_pixels (self w)) true
                       (wavelets_options_entry (self w)) = Ok wt ->
  update_plots w =
  (assess_and_report "TC" "tailcut" input_img tc reference_img ;;;
   assess_and_report "WT" "wavelets" input_img wt reference_img ;;;
   update_the_widget input_img reference_img tc wt) (cleaned_world w path).
Proof.
  intros Hpath Hload Hin Href Hn1 Hn2 Htc Hwt.
  unfold update_plots.
  rewrite (bind_ok get _ w w w) by reflexivity. rewrite Hpath.
  step idtac. step ltac:(rewrite Hload). step ltac:(rewrite Hin).
  step ltac:(rewrite Href). rewrite Hn1, Hn2. cbn [Nat.eqb negb].
  unfold astype_float64.
  step idtac. step idtac.
  step ltac:(cbn [self trace ticks]; rewrite Htc).
  step idtac. step idtac. step idtac. step idtac.
  step ltac:(cbn [self trace ticks]; rewrite Hwt).
  step idtac. step idtac. step idtac.
  unfold cleaned_world. repeat rewrite <- app_assoc. reflexivity.
Qed.

(** X13. When the loader, the tailcut cleaning or the wavelets cleaning
    raises, the update raises the same error and the container is left as
    it was: the figure still shows what it showed before. *)
Theorem failure_before_the_assessment_leaves_the_figure w path e :
  current_file_path (self w) = Some path ->
  load_benchmark_images path = Raise e \/
  (exists dict meta input_img reference_img,
     load_benchmark_images path = Ok (dict, meta) /\
     getitem dict "input_image" = Ok input_img /\
     getitem dict "reference_image" = Ok reference_img /\
     ndim input_img = 2%nat /\
     ndim reference_img = 2%nat /\
     (tailcut_clean_image input_img 10 5 = Raise e \/
      exists tc,
        tailcut_clean_image input_img 10 5 = Ok tc /\
        wavelets_clean_image input_img (kill_isolated_pixels (self w)) true
                             (wavelets_options_entry (self w)) = Raise e)) ->
  exists w', update_plots w = (Raise e, w') /\ self w' = self w.
Proof.
  intros Hpath
    [Hload|(dict & meta & input_img & reference_img & Hload & Hin & Href
            & Hn1 & Hn2 & [Htc|(tc & Htc & Hwt)])];
    unfold update_plots;
    rewrite (bind_ok get _ w w w) by reflexivity; rewrite Hpath.
  - step idtac.
    erewrite bind_raise
      by (unfold lift; rewrite Hload; reflexivity).
    eexists; split; reflexivity.
  - step idtac. step ltac:(rewrite Hload). step ltac:(rewrite Hin).
    step ltac:(rewrite Href). rewrite Hn1, Hn2. cbn [Nat.eqb negb].
    unfold astype_float64. step idtac. step idtac.
    erewrite bind_raise
      by (unfold lift; rewrite Htc; reflexivity).
    eexists; split; reflexivity.
  - step idtac. step ltac:(rewrite Hload). step ltac:(rewrite Hin).
    step ltac:(rewrite Href). rewrite Hn1, Hn2. cbn [Nat.eqb negb].
    unfold astype_float64. step idtac. step idtac.
    step ltac:(cbn [self trace ticks]; rewrite Htc).
    step idtac. step idtac. step idtac. step idtac.
    erewrite bind_raise
      by (unfold lift; cbn [self trace ticks]; rewrite Hwt; reflexivity).
    eexists; split; reflexivity.
Qed.

(** An assessment that raises something else than an assessment error. *)
Lemma assess_and_report_raises tag name input_img cleaned_img reference_img
      e w :
  assess_image_cleaning input_img cleaned_img reference_img "all" = Raise e ->
  is_AssessError e = false ->
  assess_and_report tag name input_img cleaned_img reference_img w =
  (Raise e,
   mk_World (self w)
            (trace w ++ [Call "assess.assess_image_cleaning" name])
            (ticks w)).
Proof.
  intros Hr He. unfold assess_and_report. run. cbn [self trace ticks].
  rewrite Hr, He. reflexivity.
Qed.

Lemma assess_and_report_returns tag name input_img cleaned_img reference_img
      w :
  returned_or_assess_error
    (assess_image_cleaning input_img cleaned_img reference_img "all") ->
  assess_and_report tag name input_img cleaned_img reference_img w =
  (Ok tt,
   mk_World (self w)
            (trace w ++
             [Call "assess.assess_image_cleaning" name;
              report tag (assess_image_cleaning input_img cleaned_img
                                                reference_img "all")])
            (ticks w)).
Proof. intros Hr. apply (assess_block tag name _ w Hr). Qed.

(** X14. Only assessment errors are caught. When an assessment raises any
    other error, the update raises it: the figure is not redrawn, and after
    such an error in the assessment of the tailcut result the wavelets
    result is not assessed. *)
Theorem other_errors_of_the_assessment_stop_the_update
        w path dict meta input_img reference_img tc wt e :
  current_file_path (self w) = Some path ->
  load_benchmark_images path = Ok (dict, meta) ->
  getitem dict "input_image" = Ok input_img ->
  getitem dict "reference_image" = Ok reference_img ->
  ndim input_img = 2%nat ->
  ndim reference_img = 2%nat ->
  tailcut_clean_image input_img 10 5 = Ok tc ->
  wavelets_clean_image input_img (kill_isolated_pixels (self w)) true
                       (wavelets_options_entry (self w)) = Ok wt ->
  is_AssessError e = false ->
  (assess_image_cleaning input_img tc reference_img "all" = Raise e ->
   update_plots w =
   (Raise e,
    mk_World (self w)
             (trace (cleaned_world w path)
              ++ [Call "assess.assess_image_cleaning" "tailcut"])
             (ticks (cleaned_world w path)))) /\
  (returned_or_assess_error
     (assess_image_cleaning input_img tc reference_img "all") ->
   assess_image_cleaning input_img wt reference_img "all" = Raise e ->
   exists w', update_plots w = (Raise e, w') /\ self w' = self w).
Proof.
  intros Hpath Hload Hin Href Hn1 Hn2 Htc Hwt He.
  rewrite (update_plots_after_cleaning w path dict meta input_img
             reference_img tc wt) by assumption.
  split.
  - intros Hr.
    erewrite bind_raise
      by exact (assess_and_report_raises _ _ _ _ _ e _ Hr He).
    reflexivity.
  - intros Hr1 Hr2.
    erewrite bind_ok by (apply assess_and_report_returns; exact Hr1).
    erewrite bind_raise
      by exact (assess_and_report_raises _ _ _ _ _ e _ Hr2 He).
    eexists; split; reflexivity.
Qed.

Lemma draw_image_at_raises w pos image title axis e :
  find (fun a => (position a =? pos)%nat) (axes (fig (self w)))
  = Some axis ->
  _draw_image (self w) axis image title = Raise e ->
  draw_image_at pos image title w = (Raise e, w).
Proof.
  intros Hfind Hdraw. run. rewrite Hfind, Hdraw. reflexivity.
Qed.

(** X15. The figure is cleared before anything is drawn, and the four
    images are drawn one after the other. When the third one, the tailcut
    result, cannot be drawn, the update raises with the old plots gone, the
    input and the reference drawn, the two other subplots empty, and the
    canvas drawn once, at the clearing: it does not show the two
    images. *)
Theorem undrawable_result_leaves_the_figure_half_drawn
        w path dict meta input_img reference_img tc wt a1 a2 e :
  current_file_path (self w) = Some path ->
  load_benchmark_images path = Ok (dict, meta) ->
  getitem dict "input_image" = Ok input_img ->
  getitem dict "reference_image" = Ok reference_img ->
  ndim input_img = 2%nat ->
  ndim reference_img = 2%nat ->
  tailcut_clean_image input_img 10 5 = Ok tc ->
  wavelets_clean_image input_img (kill_isolated_pixels (self w)) true
                       (wavelets_options_entry (self w)) = Ok wt ->
  returned_or_assess_error
    (assess_image_cleaning input_img tc reference_img "all") ->
  returned_or_assess_error
    (assess_image_cleaning input_img wt reference_img "all") ->
  _draw_image (self w) (new_axes 221) input_img "Input" = Ok a1 ->
  _draw_image (self w) (new_axes 222) reference_img "Reference" = Ok a2 ->
  _draw_image (self w) (new_axes 223) tc "Tailcut" = Raise e ->
  exists w',
    update_plots w = (Raise e, w') /\
    fig (self w') =
    mk_Figure [a1; a2; new_axes 223; new_axes 224]
              (S (draws (fig (self w)))).
Proof.
  intros Hpath Hload Hin Href Hn1 Hn2 Htc Hwt Hr1 Hr2 Hd1 Hd2 Hd3.
  pose proof (_draw_image_position _ _ _ _ _ Hd1) as P1.
  pose proof (_draw_image_position _ _ _ _ _ Hd2) as P2.
  cbn [position new_axes] in P1, P2.
  rewrite (update_plots_after_cleaning w path dict meta input_img
             reference_img tc wt) by assumption.
  erewrite bind_ok by (apply assess_and_report_returns; exact Hr1).
  erewrite bind_ok by (apply assess_and_report_returns; exact Hr2).
  unfold update_the_widget, clear_figure, cleaned_world.
  cbn [self trace ticks].
  do 5 (erewrite bind_ok by (run; reflexivity); norm).
  erewrite bind_ok
    by (apply draw_image_at_ok with (axis := new_axes 221);
        [reflexivity | exact Hd1]).
  norm; rewrite ?P1; norm.
  erewrite bind_ok
    by (apply draw_image_at_ok with (axis := new_axes 222);
        [norm; rewrite ?P1; reflexivity | exact Hd2]).
  norm; rewrite ?P1, ?P2; norm.
  erewrite bind_raise;
    [|apply draw_image_at_raises with (axis := new_axes 223);
      [norm; rewrite ?P1, ?P2; reflexivity | exact Hd3]].
  eexists; split; reflexivity.
Qed.

(** *** The two callbacks *)

(** X16. Turning the switch copies its state into the isolated-pixels
    flag and then updates the plots: whatever the update does, the flag is
    the state of the switch afterwards and the selection is unchanged; and
    while no file is selected nothing else happens. *)
Theorem switch_sets_the_flag_then_updates (w : World) :
  let w' := snd (kill_isolated_pixels_switch_callback w) in
  kill_isolated_pixels (self w') = kill_isolated_pixels_switch (self w) /\
  current_file_path (self w') = current_file_path (self w) /\
  kill_isolated_pixels_switch_callback w =
  update_plots
    (mk_World (set_kill_isolated_pixels
                 (kill_isolated_pixels_switch (self w)) (self w))
              (trace w) (ticks w)) /\
  (current_file_path (self w) = None ->
   kill_isolated_pixels_switch_callback w =
   (Ok tt,
    mk_World (set_kill_isolated_pixels
                (kill_isolated_pixels_switch (self w)) (self w))
             (trace w) (ticks w))).
Proof.
  set (w1 := mk_World (set_kill_isolated_pixels
                         (kill_isolated_pixels_switch (self w)) (self w))
                      (trace w) (ticks w)).
  assert (Hrun : kill_isolated_pixels_switch_callback w = update_plots w1).
  { unfold kill_isolated_pixels_switch_callback, w1.
    rewrite (bind_ok get _ w w w) by reflexivity.
    destruct (kill_isolated_pixels_switch (self w));
      erewrite bind_ok by (run; reflexivity); reflexivity. }
  cbv zeta. rewrite Hrun.
  destruct (keeps_update_plots w1)
    as (_ & K2 & K3 & _).
  repeat split.
  - rewrite K3. reflexivity.
  - rewrite K2. reflexivity.
  - intros Hnone. unfold update_plots. run.
    replace (current_file_path (self w1)) with (@None string)
      by (symmetry; exact Hnone).
    reflexivity.
Qed.

(** X17. Selecting a file makes [os.path.join(directory, file name)] the
    current file and then updates the plots; the file stays selected
    whatever the update does, also when it raises, and the settings are
    untouched. *)
Theorem selection_is_kept_whatever_the_update_does file_name (w : World) :
  let path := OsPath.join (input_directory_path (self w)) file_name in
  let w' := snd (selection_changed_callback file_name w) in
  current_file_path (self w') = Some path /\
  kill_isolated_pixels (self w') = kill_isolated_pixels (self w) /\
  wavelets_options_entry (self w') = wavelets_options_entry (self w) /\
  input_directory_path (self w') = input_directory_path (self w) /\
  selection_changed_callback file_name w =
  update_plots
    (mk_World (set_current_file_path (Some path) (self w))
              (trace w) (ticks w)).
Proof.
  set (path := OsPath.join (input_directory_path (self w)) file_name).
  set (w1 := mk_World (set_current_file_path (Some path) (self w))
                      (trace w) (ticks w)).
  assert (Hrun : selection_changed_callback file_name w = update_plots w1).
  { unfold selection_changed_callback, w1, path.
    rewrite (bind_ok get _ w w w) by reflexivity.
    erewrite bind_ok by (run; reflexivity). reflexivity. }
  cbv zeta. fold path. rewrite Hrun.
  destruct (keeps_update_plots w1)
    as (K1 & K2 & K3 & _ & _ & K6 & _).
  repeat split.
  - rewrite K2. reflexivity.
  - rewrite K3. reflexivity.
  - rewrite K6. reflexivity.
  - rewrite K1. reflexivity.
Qed.

End WithCollaborators.

Lemma switch_sets_the_flag_then_updates_witness :
  current_file_path (self switched_on) = None /\
  @kill_isolated_pixels_switch_callback Samples.collaborators switched_on =
  (Ok tt,
   mk_World (set_kill_isolated_pixels true (self switched_on)) [] 0).
Proof.
  split; [reflexivity|].
  exact (proj2 (proj2 (proj2 (@switch_sets_the_flag_then_updates
                                Samples.collaborators switched_on)))
           eq_refl).
Defined.

Lemma failure_before_the_assessment_leaves_the_figure_witness :
  current_file_path (self (selecting "column.fits")) = Some "column.fits" /\
  exists w',
    @update_plots Scenarios.collaborators (selecting "column.fits")
    = (Raise (ValueError "mr_filter failed"), w') /\
    self w' = self (selecting "column.fits").
Proof.
  split; [reflexivity|].
  apply (@failure_before_the_assessment_leaves_the_figure
           Scenarios.collaborators (selecting "column.fits") "column.fits"
           (ValueError "mr_filter failed") eq_refl).
  right.
  exists [("input_image", column_image); ("reference_image", column_image)],
    [], column_image, column_image.
  repeat split; try reflexivity.
  right. exists column_image. split; reflexivity.
Defined.

Lemma other_errors_of_the_assessment_stop_the_update_witness :
  is_AssessError (ValueError "operands could not be broadcast") = false /\
  @update_plots Scenarios.collaborators (selecting "square.fits") =
  (Raise (ValueError "operands could not be broadcast"),
   mk_World (self (selecting "square.fits"))
            (trace (cleaned_world (ext := Scenarios.collaborators)
                                  (selecting "square.fits") "square.fits")
             ++ [Call "assess.assess_image_cleaning" "tailcut"])
            4).
Proof.
  split; [reflexivity|].
  apply (proj1 (@other_errors_of_the_assessment_stop_the_update
                  Scenarios.collaborators (selecting "square.fits")
                  "square.fits"
                  [("input_image", square_image);
                   ("reference_image", square_image)] []
                  square_image square_image square_image square_image
                  (ValueError "operands could not be broadcast")
                  eq_refl eq_refl eq_refl eq_refl eq_refl eq_refl
                  eq_refl eq_refl eq_refl)).
  reflexivity.
Defined.

Lemma undrawable_result_leaves_the_figure_half_drawn_witness :
  exists a1 a2 w',
    _draw_image (self (selecting "row.fits")) (new_axes 221)
                row_image "Input" = Ok a1 /\
    _draw_image (self (selecting "row.fits")) (new_axes 223)
                Samples.image_1d "Tailcut"
    = Raise (IndexError "tuple index out of range") /\
    @update_plots Scenarios.collaborators (selecting "row.fits")
    = (Raise (IndexError "tuple index out of range"), w') /\
    fig (self w') = mk_Figure [a1; a2; new_axes 223; new_axes 224] 1.
Proof.
  do 2 eexists.
  destruct (@undrawable_result_leaves_the_figure_half_drawn
              Scenarios.collaborators (selecting "row.fits") "row.fits"
              [("input_image", row_image); ("reference_image", row_image)]
              [] row_image row_image Samples.image_1d row_image
              _ _ (IndexError "tuple index out of range")
              eq_refl eq_refl eq_refl eq_refl eq_refl eq_refl eq_refl
              eq_refl I I eq_refl eq_refl eq_refl)
    as (w' & Hrun & Hfig).
  exists w'. split; [reflexivity|]. split; [reflexivity|].
  split; [exact Hrun|exact Hfig].
Defined.

End WidgetRuns.

(** ** A file that lacks one of the two images *)

Module MissingImage.

Import Numpy Trace PyFacts Outcomes Scenarios.

Lemma getitem_missing {V} key : forall d : list (string * V),
  ~ In key (map fst d) -> getitem d key = Raise (KeyError key).
Proof.
  induction d as [|[k v] d IH]; intros Hk; [reflexivity|].
  cbn [getitem]. destruct (String.eqb_spec k key) as [->|Hne].
  - exfalso. apply Hk. left; reflexivity.
  - apply IH. intros Hin. apply Hk. right; exact Hin.
Qed.

Section WithCollaborators.

Context {ext : Collaborators}.

(** X18. Both images are taken out of the loaded file before either is
    checked. A file without the key ["input_image"], or with it but without
    ["reference_image"], makes the batch loop body and the update of the
    container raise [KeyError] for the missing key, also when the input
    image that is there is not a 2D array. *)
Theorem missing_image_raises_key_error path dict meta key :
  load_benchmark_images path = Ok (dict, meta) ->
  (key = "input_image" /\ ~ In "input_image" (map fst dict)) \/
  (key = "reference_image" /\
   (exists input_img, getitem dict "input_image" = Ok input_img) /\
   ~ In "reference_image" (map fst dict)) ->
  (forall quiet output w,
     PlotPerpendicularHitDistribution.process_file quiet output path w =
     (Raise (KeyError key),
      w ++ [Call "images.load_benchmark_images" path])) /\
  (forall w,
     BenchmarkPlotsContainer.current_file_path
       (BenchmarkPlotsContainer.self w) = Some path ->
     BenchmarkPlotsContainer.update_plots w =
     (Raise (KeyError key),
      BenchmarkPlotsContainer.mk_World
        (BenchmarkPlotsContainer.self w)
        (BenchmarkPlotsContainer.trace w
         ++ [Call "images.load_benchmark_images" path])
        (BenchmarkPlotsContainer.ticks w))).
Proof.
  intros Hload Hkey.
  assert (Hget :
    getitem dict "input_image" = Raise (KeyError key) \/
    exists input_img,
      getitem dict "input_image" = Ok input_img /\
      getitem dict "reference_image" = Raise (KeyError key)).
  { destruct Hkey as [[-> Hk]|(-> & (input_img & Hin) & Hk)].
    - left. apply getitem_missing; exact Hk.
    - right. exists input_img. split; [exact Hin|].
      apply getitem_missing; exact Hk. }
  split.
  - intros quiet output w.
    unfold PlotPerpendicularHitDistribution.process_file.
    erewrite bind_ok by reflexivity.
    erewrite bind_ok by (unfold lift; rewrite Hload; reflexivity).
    cbv beta iota.
    destruct Hget as [Hin|(input_img & Hin & Href)].
    + erewrite bind_raise by (unfold lift; rewrite Hin; reflexivity).
      reflexivity.
    + erewrite bind_ok by (unfold lift; rewrite Hin; reflexivity).
      erewrite bind_raise by (unfold lift; rewrite Href; reflexivity).
      reflexivity.
  - intros w Hpath. unfold BenchmarkPlotsContainer.update_plots.
    rewrite (bind_ok get _ w w w) by reflexivity. rewrite Hpath.
    erewrite bind_ok by reflexivity.
    erewrite bind_ok by (unfold lift; rewrite Hload; reflexivity).
    cbv beta iota.
    destruct Hget as [Hin|(input_img & Hin & Href)].
    + erewrite bind_raise by (unfold lift; rewrite Hin; reflexivity).
      reflexivity.
    + erewrite bind_ok by (unfold lift; rewrite Hin; reflexivity).
      erewrite bind_raise by (unfold lift; rewrite Href; reflexivity).
      reflexivity.
Qed.

End WithCollaborators.

Lemma missing_image_raises_key_error_witness :
  ndim Samples.image_1d <> 2%nat /\
  @BenchmarkPlotsContainer.update_plots Scenarios.collaborators
    (selecting "half.fits") =
  (Raise (KeyError "reference_image"),
   BenchmarkPlotsContainer.mk_World
     (BenchmarkPlotsContainer.self (selecting "half.fits"))
     [Call "images.load_benchmark_images" "half.fits"] 0).
Proof.
  split; [discriminate|].
  refine (proj2 (@missing_image_raises_key_error Scenarios.collaborators
                   "half.fits" [("input_image", Samples.image_1d)] []
                   "reference_image" eq_refl _)
            (selecting "half.fits") eq_refl).
  right. split; [reflexivity|]. split.
  - exists Samples.image_1d. reflexivity.
  - cbn [map fst In]. intros [H|[]]. discriminate H.
Defined.

End MissingImage.

(** ** The histogram of the pixel values *)

Module PixelHistogram.

Import Numpy Mpl Trace BenchmarkPlotsContainer Outcomes Scenarios.
Import NumpyFacts.

Lemma fold_left_Rmin_const v : forall vs,
  (forall u, In u vs -> u = v) -> fold_left Rmin vs v = v.
Proof.
  induction vs as [|x vs IH]; intros H; [reflexivity|].
  cbn [fold_left]. rewrite (H x) by (left; reflexivity).
  unfold Rmin. destruct (Rle_dec v v); apply IH; intros u Hu; apply H;
    right; exact Hu.
Qed.

Lemma fold_left_Rmax_const v : forall vs,
  (forall u, In u vs -> u = v) -> fold_left Rmax vs v = v.
Proof.
  induction vs as [|x vs IH]; intros H; [reflexivity|].
  cbn [fold_left]. rewrite (H x) by (left; reflexivity).
  unfold Rmax. destruct (Rle_dec v v); apply IH; intros u Hu; apply H;
    right; exact Hu.
Qed.

Lemma Zceil_0 : Zceil 0 = 0%Z.
Proof. apply Zceil_eq. simpl. lra. Qed.

(** X19. [_draw_histogram] cannot draw the histogram of an image all of
    whose pixels have the same value: the number of bins,
    [ceil(max - min)], is then zero and the histogram raises
    [ValueError]. *)
Theorem histogram_of_a_constant_image_raises axis image v vs :
  data image = v :: vs ->
  (forall u, In u vs -> u = v) ->
  _draw_histogram axis image =
  Raise (ValueError "`bins` must be positive, when an integer").
Proof.
  intros Hd Hconst. unfold _draw_histogram, amax, amin. rewrite Hd.
  rewrite (fold_left_Rmax_const v vs Hconst),
    (fold_left_Rmin_const v vs Hconst).
  replace (v - v) with 0 by ring. rewrite Zceil_0. reflexivity.
Qed.

Lemma histogram_of_a_constant_image_raises_witness :
  data constant_image = 5 :: [5; 5; 5] /\
  _draw_histogram (new_axes 221) constant_image =
  Raise (ValueError "`bins` must be positive, when an integer").
Proof.
  split; [reflexivity|].
  apply (histogram_of_a_constant_image_raises
           (new_axes 221) constant_image 5 [5; 5; 5] eq_refl).
  intros u Hu. cbn [In] in Hu.
  destruct Hu as [<-|[<-|[<-|[]]]]; reflexivity.
Defined.




End PixelHistogram.
